(** * Voice-AI-Latency: the frame-level control layer

    A shallow embedding of the real-time core of the repository:

    - [TurnGateProcessor]   (app/processors/turn_gate.py)
    - [LatencyInjector]     (app/processors/latency_injector.py)
    - [SttMute]             (app/processors/stt_mute.py)
    - [CallNumberProvider]  (app/providers/call_number_provider.py)
    - [ACSFrameSerializer]  (app/transports/acs_serializer.py)

    Python objects become records, [self] is passed explicitly, pushes of
    frames and sleeps become entries of an output trace, and a raised
    exception becomes the [Raise] constructor of [result]. *)

From Stdlib Require Import ZArith Ascii String List.
From Stdlib.Strings Require Import Byte.
From Stdlib.Floats Require Import SpecFloat.
From stdpp Require Import base tactics option list strings pretty numbers gmap.

Local Open Scope Z_scope.
Local Open Scope string_scope.
Local Open Scope list_scope.

(** ** Python values shared by the components *)

(** The exceptions that the modelled code and its library calls raise.
    [JSONDecodeError], [UnicodeDecodeError] and [BinasciiError] are
    subclasses of [ValueError] in Python. *)
Inductive exn :=
| ValueError
| JSONDecodeError
| UnicodeDecodeError
| BinasciiError
| AttributeError
| TypeError
| AudioopError
| OverflowError
| RecursionError
| IndexError
| StopIteration
| RuntimeError
| FileNotFoundError.

Definition is_ValueError (e : exn) : bool :=
  match e with
  | ValueError | JSONDecodeError | UnicodeDecodeError | BinasciiError => true
  | _ => false
  end.

(** Outcome of a Python call: a value, or an exception that propagates. *)
Inductive result (A : Type) :=
| Return (a : A)
| Raise (e : exn).
Arguments Return {A} a.
Arguments Raise {A} e.

Global Instance result_ret : MRet result := fun _ a => Return a.
Global Instance result_bind : MBind result := fun _ _ k m =>
  match m with
  | Return a => k a
  | Raise e => Raise e
  end.
Global Instance result_fmap : FMap result := fun _ _ f m =>
  match m with
  | Return a => Return (f a)
  | Raise e => Raise e
  end.

(** A coroutine over a state [S] whose awaits are recorded as a trace of
    events [E].  State and trace survive a raised exception. *)
Definition proc (S E A : Type) : Type := S -> result A * S * list E.

Global Instance proc_ret {S E} : MRet (proc S E) :=
  fun _ a s => (Return a, s, []).
Global Instance proc_bind {S E} : MBind (proc S E) := fun _ _ k m s =>
  match m s with
  | (Return a, s1, tr1) =>
      match k a s1 with (r, s2, tr2) => (r, s2, tr1 ++ tr2) end
  | (Raise e, s1, tr1) => (Raise e, s1, tr1)
  end.

Definition get_state {S E} : proc S E S := fun s => (Return s, s, []).

(** A [bytes] object. *)
Definition bytes := list byte.

(** The values [json.loads] produces and [json.dumps] consumes.  A Python
    dict keeps insertion order, which [json.dumps] follows, so an object is
    an association list without repeated keys.  A number literal without
    fraction and exponent is an [int], of any size; every other number
    literal is a [float], an IEEE 754 double: a signed zero, a signed
    infinity, a NaN, or [(-1)^s * m * 2^e]. *)
#[local] Set Warnings "-register-all".
Inductive json :=
| JNull
| JBool (b : bool)
| JInt (n : Z)
| JFloat (x : spec_float)
| JStr (s : string)
| JArr (items : list json)
| JObj (members : list (string * json)).

(** [x == n] for a float [x] and an int [n]: Python compares the exact
    values, so [16000.0 == 16000], and a NaN or an infinity equals no int. *)
Definition float_eq_int (x : spec_float) (n : Z) : bool :=
  match x with
  | S754_zero _ => Z.eqb n 0
  | S754_finite s m e =>
      let v := if s then Z.neg m else Z.pos m in
      if Z.leb 0 e then Z.eqb (v * 2 ^ e) n else Z.eqb v (n * 2 ^ (- e))
  | _ => false
  end.

(** Python truthiness, as used by [or] and [not]. *)
Definition truthy (v : json) : bool :=
  match v with
  | JNull => false
  | JBool b => b
  | JInt n => negb (Z.eqb n 0)
  | JFloat x => match x with S754_zero _ => false | _ => true end
  | JStr s => negb (String.eqb s "")
  | JArr items => match items with [] => false | _ => true end
  | JObj members => match members with [] => false | _ => true end
  end.

(** [a or b]: [a] when it is truthy, [b] otherwise. *)
Definition py_or (a b : json) : json := if truthy a then a else b.

(** [d.get(key)] on a dict: the stored value, or [None]. *)
Fixpoint dict_get (members : list (string * json)) (key : string) : json :=
  match members with
  | [] => JNull
  | (k, v) :: rest => if String.eqb k key then v else dict_get rest key
  end.

(** [d[key] = v] on a dict: the key keeps its place when present. *)
Fixpoint dict_set (key : string) (v : json) (members : list (string * json))
  : list (string * json) :=
  match members with
  | [] => [(key, v)]
  | (k, v') :: rest =>
      if String.eqb k key then (k, v) :: rest else (k, v') :: dict_set key v rest
  end.

(** [v.get(key)]: only a dict has a [get] attribute. *)
Definition py_get (v : json) (key : string) : result json :=
  match v with
  | JObj members => Return (dict_get members key)
  | _ => Raise AttributeError
  end.

(** How deep the containers of a value are nested: 0 for a scalar, 1 for
    a list or dict of scalars. *)
Fixpoint json_depth (v : json) : nat :=
  match v with
  | JArr items => S (foldr (fun x d => Nat.max (json_depth x) d) 0%nat items)
  | JObj members =>
      S (foldr (fun kv d => Nat.max (let '(_, x) := kv in json_depth x) d) 0%nat
           members)
  | _ => 0%nat
  end.

(** The limit on the decimal digits of an [int] that [str] converts
    ([sys.get_int_max_str_digits()], 4300 unless configured). *)
Definition int_max_str_digits : Z := 4300.

Definition int_printable (n : Z) : bool :=
  Z.ltb (Z.abs n) (10 ^ int_max_str_digits).

Fixpoint ints_printable (v : json) : bool :=
  match v with
  | JInt n => int_printable n
  | JArr items => forallb ints_printable items
  | JObj members => forallb (fun kv => let '(_, x) := kv in ints_printable x) members
  | _ => true
  end.

(** ** Frames of the pipeline engine

    The frame classes come from the pipeline library; the model keeps the
    classes that the code tests with [isinstance] and the fields it reads.
    [UserAudioRawFrame] is a subclass of [InputAudioRawFrame], and every
    audio class is a subclass of [AudioRawFrame]. *)
Inductive audio_class :=
| PlainAudioRaw
| InputAudioRaw
| UserAudioRaw
| OutputAudioRaw.

Record audio_data := AudioData {
  audio : bytes;
  sample_rate : Z;
  num_channels : Z
}.

Inductive frame :=
| StartFrame (audio_in_sample_rate : Z)
| EndFrame
| CancelFrame
| StartInterruptionFrame
| AudioFrame (cls : audio_class) (a : audio_data)
| TransportMessageFrame (message : json)
| TransportMessageUrgentFrame (message : json)
| UserStartedSpeakingFrame
| UserStoppedSpeakingFrame
| BotStartedSpeakingFrame
| BotStoppedSpeakingFrame
| OpenAILLMContextFrame (context : json)
| LLMMessagesFrame (messages : json)
| TTSSpeakFrame (text : string)
| STTMuteFrame (mute : bool)
| OtherFrame (class_name : string).

Definition InputAudioRawFrame (pcm : bytes) (channels rate : Z) : frame :=
  AudioFrame InputAudioRaw (AudioData pcm rate channels).

Inductive FrameDirection := DOWNSTREAM | UPSTREAM.

Definition is_downstream (d : FrameDirection) : bool :=
  match d with DOWNSTREAM => true | UPSTREAM => false end.

(** [isinstance(frame, (InputAudioRawFrame, UserAudioRawFrame))] *)
Definition is_raw_input_audio (f : frame) : bool :=
  match f with
  | AudioFrame InputAudioRaw _ | AudioFrame UserAudioRaw _ => true
  | _ => false
  end.

(** [isinstance(frame, (TransportMessageFrame, TransportMessageUrgentFrame))] *)
Definition is_transport_message (f : frame) : bool :=
  match f with
  | TransportMessageFrame _ | TransportMessageUrgentFrame _ => true
  | _ => false
  end.

(** A frame handed to [push_frame], with its direction. *)
Definition pushed := (frame * FrameDirection)%type.

(** ** Turn gate (app/processors/turn_gate.py) *)
Module TurnGateProcessor.

Record t := Gate {
  _enabled : bool;
  _mute : bool;
  _dropped : Z;
  _saw_user_since_enable : bool
}.

Definition __init__ : t := Gate true false 0 false.

Definition enable (self : t) : t := Gate true false 0 false.

Definition disable (self : t) : t := Gate false false 0 false.

(** The state machine part of [process_frame]: the [if]/[elif] chain on the
    frame's class. *)
Definition transition (self : t) (f : frame) : t :=
  match f with
  | UserStartedSpeakingFrame =>
      Gate (_enabled self) (_mute self) (_dropped self) true
  | UserStoppedSpeakingFrame =>
      if _saw_user_since_enable self
      then Gate (_enabled self) true 0 (_saw_user_since_enable self)
      else self
  | BotStoppedSpeakingFrame =>
      Gate (_enabled self) false (_dropped self) false
  | _ => self
  end.

(** [process_frame]: the new state and the frames pushed on.  The call of
    the base class's [process_frame], which pushes nothing, is left out. *)
Definition process_frame (self : t) (f : frame) (direction : FrameDirection)
  : t * list pushed :=
  if negb (_enabled self) then (self, [(f, direction)])
  else
    let self := transition self f in
    if _mute self && is_raw_input_audio f
    then (Gate (_enabled self) (_mute self) (_dropped self + 1)
               (_saw_user_since_enable self), [])
    else (self, [(f, direction)]).

(** Feeding a sequence of frames, all pushed frames in order. *)
Fixpoint run (self : t) (fs : list pushed) : t * list pushed :=
  match fs with
  | [] => (self, [])
  | (f, d) :: rest =>
      let '(self1, out1) := process_frame self f d in
      let '(self2, out2) := run self1 rest in
      (self2, out1 ++ out2)
  end.

(** A sequence of raw caller audio frames. *)
Definition all_raw_audio (fs : list pushed) : Prop :=
  Forall (fun p => is_raw_input_audio (fst p) = true) fs.

(** A pushed frame that is not raw caller audio. *)
Definition not_raw_audio (p : pushed) : Prop := is_raw_input_audio (fst p) = false.

(** The states a gate can be in: a new gate, after the public operations,
    and after each processed frame. *)
Inductive reachable : t -> Prop :=
| reachable_init : reachable __init__
| reachable_enable g : reachable g -> reachable (enable g)
| reachable_disable g : reachable g -> reachable (disable g)
| reachable_frame g f d : reachable g -> reachable (fst (process_frame g f d)).

End TurnGateProcessor.

(** ** The [random] module

    The generator's state is the sequence of raw draws still to come;
    quantifying over [draws] covers every outcome of [random.choice]. *)
Module random.

Record rng := Rng {
  draws : nat -> nat;
  drawn : nat
}.

Definition randbelow (n : nat) (g : rng) : nat * rng :=
  (Nat.modulo (draws g (drawn g)) n, Rng (draws g) (S (drawn g))).

(** [random.choice(seq)]: [IndexError] on an empty sequence, otherwise
    [seq[randbelow(len(seq))]]. *)
Definition choice {A} (seq : list A) (g : rng) : result A * rng :=
  match seq with
  | [] => (Raise IndexError, g)
  | _ =>
      let '(i, g') := randbelow (length seq) g in
      match seq !! i with
      | Some x => (Return x, g')
      | None => (Raise IndexError, g')
      end
  end.

End random.

(** ** [itertools.cycle] *)
Module itertools.
Section Cycle.
Context {A : Type}.

(** The iterator first hands out the elements of its argument, saving
    them, and then walks the saved list round and round. *)
Record cycle := Cycle {
  pending : list A;
  saved : list A;
  index : nat
}.

Definition cycle_new (iterable : list A) : cycle := Cycle iterable [] 0.

(** [next(c)] *)
Definition next (c : cycle) : result A * cycle :=
  match pending c with
  | x :: rest => (Return x, Cycle rest (saved c ++ [x]) (index c))
  | [] =>
      match saved c !! index c with
      | None => (Raise StopIteration, c)
      | Some x =>
          let i := S (index c) in
          (Return x,
           Cycle [] (saved c) (if decide (length (saved c) <= i)%nat then 0%nat else i))
      end
  end.

(** The iterator over [xs] after [k] calls of [next]. *)
Definition cycle_at (xs : list A) (k : nat) : cycle :=
  if decide (k < length xs)%nat
  then Cycle (drop k xs) (take k xs) 0
  else Cycle [] xs (Nat.modulo k (length xs)).

End Cycle.
Global Arguments cycle : clear implicits.
End itertools.

(** ** Latency injector (app/processors/latency_injector.py) *)
Module LatencyInjector.
Section WithSeconds.

(** The type of a delay in seconds (a Python float).  The code only stores,
    logs and sleeps on such a value. *)
Context {seconds : Type}.

(** The module-level names and the state of [random], shared by every
    instance of the process. *)
Record process := Process {
  LATENCY_CHOICES : list seconds;
  _latency_cycle : itertools.cycle seconds;
  gen : random.rng
}.

(** Module import: [LATENCY_CHOICES = tuple(settings.latency.choices_s)],
    [_latency_cycle = itertools.cycle(LATENCY_CHOICES)]. *)
Definition import_module (choices_s : list seconds) (g : random.rng) : process :=
  Process choices_s (itertools.cycle_new choices_s) g.

Definition _next_latency_round_robin (p : process) : result seconds * process :=
  let '(r, c) := itertools.next (_latency_cycle p) in
  (r, Process (LATENCY_CHOICES p) c (gen p)).

Record t := Injector {
  _choices : list seconds;
  _strategy : string;
  _latency_seconds : option seconds;
  _busy : bool
}.

(** [LatencyInjector(choices, strategy=...)] in a process [p]. *)
Definition __init__ (p : process) (choices : option (list seconds)) (strategy : string)
  : result t :=
  let _choices :=
    match choices with
    | Some (x :: xs) => x :: xs
    | _ => LATENCY_CHOICES p
    end in
  if negb (String.eqb strategy "random" || String.eqb strategy "round_robin")
  then Raise ValueError
  else Return (Injector _choices strategy None false).

(** What a suspension of the coroutine shows to the rest of the session:
    a frame handed to [push_frame] or a call of [asyncio.sleep], together
    with the value of [_busy] at that moment. *)
Inductive action :=
| Push (f : frame) (d : FrameDirection)
| Sleep (s : seconds).

Definition event := (action * bool)%type.

Definition state := (process * t)%type.

Definition await (a : action) : proc state event unit :=
  fun s => (Return tt, s, [(a, _busy (snd s))]).

Definition push_frame (f : frame) (d : FrameDirection) : proc state event unit :=
  await (Push f d).

Definition asyncio_sleep (s : seconds) : proc state event unit :=
  await (Sleep s).

(** [self._busy = b] and [self._latency_seconds = v] *)
Definition with_busy (self : t) (b : bool) : t :=
  Injector (_choices self) (_strategy self) (_latency_seconds self) b.

Definition with_latency_seconds (self : t) (v : seconds) : t :=
  Injector (_choices self) (_strategy self) (Some v) (_busy self).

Definition set_busy (b : bool) : proc state event unit :=
  fun '(p, self) => (Return tt, (p, with_busy self b), []).

Definition set_latency_seconds (v : seconds) : proc state event unit :=
  fun '(p, self) => (Return tt, (p, with_latency_seconds self v), []).

(** A call into module-level code, which only touches the process state.
    [StopIteration] leaving a coroutine body is turned into [RuntimeError]
    by the interpreter. *)
Definition call_in_coroutine (f : process -> result seconds * process)
  : proc state event seconds :=
  fun '(p, self) =>
    let '(r, p') := f p in
    (match r with Raise StopIteration => Raise RuntimeError | _ => r end,
     (p', self), []).

(** [random.choice(choices)] on the process-wide generator. *)
Definition random_choice (choices : list seconds) (p : process)
  : result seconds * process :=
  let '(r, g) := random.choice choices (gen p) in
  (r, Process (LATENCY_CHOICES p) (_latency_cycle p) g).

Definition _pick_latency : proc state event seconds :=
  s ← get_state;
  match _latency_seconds (snd s) with
  | Some v => mret v
  | None =>
      v ← (if String.eqb (_strategy (snd s)) "random"
           then call_in_coroutine (random_choice (_choices (snd s)))
           else call_in_coroutine _next_latency_round_robin);
      set_latency_seconds v;;
      mret v
  end.

(** [isinstance(frame, (OpenAILLMContextFrame, LLMMessagesFrame))] *)
Definition is_context_frame (f : frame) : bool :=
  match f with
  | OpenAILLMContextFrame _ | LLMMessagesFrame _ => true
  | _ => false
  end.

Definition is_TTSSpeakFrame (f : frame) : bool :=
  match f with TTSSpeakFrame _ => true | _ => false end.

(** [process_frame], without the call of the base class's method, which
    pushes nothing. *)
Definition process_frame (f : frame) (direction : FrameDirection)
  : proc state event unit :=
  (if is_downstream direction && is_context_frame f then
     push_frame (STTMuteFrame true) UPSTREAM;;
     set_busy true;;
     latency ← _pick_latency;
     asyncio_sleep latency
   else mret tt);;
  s ← get_state;
  (if _busy (snd s) && is_downstream direction && is_TTSSpeakFrame f then
     push_frame (STTMuteFrame false) UPSTREAM;;
     set_busy false
   else mret tt);;
  push_frame f direction.

(** The [busy] property. *)
Definition busy (self : t) : bool := _busy self.

Definition latency_seconds (self : t) : option seconds := _latency_seconds self.

(** One session as the call pipeline sets it up: a new instance with the
    given strategy, then its first [_pick_latency]. *)
Definition new_session (strategy : string) (p : process)
  : result seconds * process :=
  match __init__ p None strategy with
  | Raise e => (Raise e, p)
  | Return self =>
      match _pick_latency (p, self) with
      | (r, (p', _), _) => (r, p')
      end
  end.

(** [n] sessions one after the other, with the delay each one picked. *)
Fixpoint sessions (strategy : string) (n : nat) (p : process)
  : list (result seconds) * process :=
  match n with
  | O => ([], p)
  | S n' =>
      let '(r, p1) := new_session strategy p in
      let '(rs, p2) := sessions strategy n' p1 in
      (r :: rs, p2)
  end.

(** The two tests of [process_frame] on a frame and its direction: the
    frame that starts the hold, and the frame that ends it. *)
Definition holding (x : pushed) : bool :=
  is_downstream (snd x) && is_context_frame (fst x).

Definition unmuting (x : pushed) : bool :=
  is_downstream (snd x) && is_TTSSpeakFrame (fst x).

(** The frames of a session processed one after the other by one
    instance; an exception ends the run. *)
Fixpoint run (fs : list pushed) : proc state event unit :=
  match fs with
  | [] => mret tt
  | (f, d) :: rest => process_frame f d;; run rest
  end.

(** The entries of a trace that the injector adds of its own: sleeps and
    upstream [STTMuteFrame]s. *)
Definition is_upstream_mute (x : pushed) : bool :=
  match x with
  | (STTMuteFrame _, UPSTREAM) => true
  | _ => false
  end.

Definition is_own_event (e : event) : bool :=
  match fst e with
  | Sleep _ => true
  | Push f d => is_upstream_mute (f, d)
  end.

Definition sleeps (tr : list event) : list seconds :=
  omap (fun e => match fst e with Sleep s => Some s | Push _ _ => None end) tr.

Definition pushes (tr : list event) : list pushed :=
  omap (fun e => match fst e with Push f d => Some (f, d) | Sleep _ => None end) tr.

(** Candidate number [i mod len] of the configured candidates; with no
    candidate at all the pick fails. *)
Definition rotation (choices : list seconds) (i : nat) : result seconds :=
  match choices !! Nat.modulo i (length choices) with
  | Some x => Return x
  | None => Raise RuntimeError
  end.

End WithSeconds.
Global Arguments process : clear implicits.
Global Arguments t : clear implicits.
Global Arguments action : clear implicits.
Global Arguments event : clear implicits.
Global Arguments state : clear implicits.
End LatencyInjector.

(** ** Recognizer mute policy (app/processors/stt_mute.py) *)
Module SttMute.

(** The part of the library's [STTMuteFilter] that the callback reads. *)
Record STTMuteFilter := Filter {
  _bot_is_speaking : bool
}.

(** The closure [should_mute_callback] that [build_stt_mute] installs; it
    reads the injector it captured at the time of the query. *)
Definition should_mute_callback {seconds} (latency_injector : LatencyInjector.t seconds)
    (flt : STTMuteFilter) : bool :=
  _bot_is_speaking flt || LatencyInjector.busy latency_injector.

End SttMute.

(** ** Call-number allocator (app/providers/call_number_provider.py) *)
Module CallNumberProvider.

Fixpoint zeros (n : nat) : string :=
  match n with
  | O => ""
  | S n' => String "0" (zeros n')
  end.

Definition zfill (width : nat) (digits : string) : string :=
  zeros (width - String.length digits) +:+ digits.

(** [f"{i:03d}"]: decimal digits, padded with zeros after the sign to a
    width of at least 3. *)
Definition format_03d (i : Z) : string :=
  match i with
  | Zneg p => "-" +:+ zfill 2 (pretty (Npos p))
  | _ => zfill 3 (pretty (Z.to_N i))
  end.

(** Reading a decimal string back: the value of its digits, and the sign. *)
Fixpoint digits_value (acc : N) (s : string) : N :=
  match s with
  | EmptyString => acc
  | String c r => digits_value (10 * acc + (N_of_ascii c - 48)) r
  end.

Definition int_of_string (s : string) : Z :=
  match s with
  | String "-" r => - Z.of_N (digits_value 0 r)
  | _ => Z.of_N (digits_value 0 s)
  end.



(** [list.remove(x)]: drops the first occurrence ([x] is always present
    where the provider calls it). *)
Fixpoint list_remove (x : string) (l : list string) : list string :=
  match l with
  | [] => []
  | y :: rest => if String.eqb y x then rest else y :: list_remove x rest
  end.

Section WithSettings.

(** [settings.providers.call_numbers_range_start] and [..._range_end]. *)
Context (_RANGE_START _RANGE_END : Z).

(** What the provider works on: the pool file (absent, or holding a JSON
    list of strings) and the state of [random]. *)
Record world := World {
  pool_file : option (list string);
  gen : random.rng
}.

(** [[f"{i:03d}" for i in range(_RANGE_START, _RANGE_END + 1)]] *)
Definition full_pool : list string :=
  format_03d <$> seqZ _RANGE_START (_RANGE_END + 1 - _RANGE_START).

Definition _save_pool (pool : list string) (w : world) : world :=
  World (Some pool) (gen w).

Definition _load_pool (w : world) : result (list string) :=
  match pool_file w with
  | Some pool => Return pool
  | None => Raise FileNotFoundError
  end.

Definition _ensure_pool (w : world) : world :=
  match pool_file w with
  | None => _save_pool full_pool w
  | Some _ => w
  end.

(** The instance holds only the path and its lock. *)
Definition __init__ (w : world) : world := _ensure_pool w.

(** [get_number], run under the lock from load to save. *)
Definition get_number (w : world) : result string * world :=
  match _load_pool w with
  | Raise e => (Raise e, w)
  | Return pool =>
      match pool with
      | [] => (Raise RuntimeError, w)
      | _ =>
          match random.choice pool (gen w) with
          | (Raise e, g) => (Raise e, World (pool_file w) g)
          | (Return number, g) =>
              let pool := list_remove number pool in
              (Return number, _save_pool pool (World (pool_file w) g))
          end
      end
  end.

(** [CallNumberProvider().get_number()], as every call setup does. *)
Definition issue (w : world) : result string * world := get_number (__init__ w).

(** [k] issues one after the other, with the outcome of each. *)
Fixpoint issue_many (k : nat) (w : world) : list (result string) * world :=
  match k with
  | O => ([], w)
  | S k' =>
      let '(r, w1) := issue w in
      let '(rs, w2) := issue_many k' w1 in
      (r :: rs, w2)
  end.

End WithSettings.

(** The ids among a list of outcomes. *)
Definition issued (rs : list (result string)) : list string :=
  omap (fun r => match r with Return x => Some x | Raise _ => None end) rs.

End CallNumberProvider.

(** ** Session setup (app/pipelines/call_pipeline.py) *)
Module call_pipeline.
Section WithSettings.
Context {seconds : Type}.

(** [settings.latency.strategy] and the call-number range. *)
Context (strategy : string) (_RANGE_START _RANGE_END : Z).

(** What the setup touches: the module state of the latency injector, whose
    generator is the one [random] state of the process, and the pool file. *)
Record world := World {
  proc : LatencyInjector.process seconds;
  pool_file : option (list string)
}.

Definition with_gen (p : LatencyInjector.process seconds) (g : random.rng)
  : LatencyInjector.process seconds :=
  LatencyInjector.Process (LatencyInjector.LATENCY_CHOICES p)
    (LatencyInjector._latency_cycle p) g.

(** The three statements of [build_pipeline] that draw the session's
    delay and call number:
    [latency = LatencyInjector(strategy=settings.latency.strategy)],
    [call_id = CallNumberProvider().get_number()],
    [chosen_latency = await latency._pick_latency()]. *)
Definition build_pipeline (w : world)
  : result (string * seconds * LatencyInjector.t seconds) * world :=
  match LatencyInjector.__init__ (proc w) None strategy with
  | Raise e => (Raise e, w)
  | Return latency =>
      match CallNumberProvider.issue _RANGE_START _RANGE_END
              (CallNumberProvider.World (pool_file w) (LatencyInjector.gen (proc w))) with
      | (Raise e, cw) =>
          (Raise e,
           World (with_gen (proc w) (CallNumberProvider.gen cw))
             (CallNumberProvider.pool_file cw))
      | (Return call_id, cw) =>
          match LatencyInjector._pick_latency
                  (with_gen (proc w) (CallNumberProvider.gen cw), latency) with
          | (Raise e, (p, _), _) =>
              (Raise e, World p (CallNumberProvider.pool_file cw))
          | (Return chosen_latency, (p, latency), _) =>
              (Return (call_id, chosen_latency, latency),
               World p (CallNumberProvider.pool_file cw))
          end
      end
  end.

(** [n] connections set up one after the other. *)
Fixpoint connections (n : nat) (w : world)
  : list (result (string * seconds * LatencyInjector.t seconds)) * world :=
  match n with
  | O => ([], w)
  | S n' =>
      let '(r, w1) := build_pipeline w in
      let '(rs, w2) := connections n' w1 in
      (r :: rs, w2)
  end.

End WithSettings.

(** The call numbers and the delays of the connections that were set up. *)
Definition call_ids {seconds}
    (rs : list (result (string * seconds * LatencyInjector.t seconds))) : list string :=
  omap (fun r => match r with Return (id, _, _) => Some id | Raise _ => None end) rs.

Definition chosen_latencies {seconds}
    (rs : list (result (string * seconds * LatencyInjector.t seconds))) : list seconds :=
  omap (fun r => match r with Return (_, d, _) => Some d | Raise _ => None end) rs.

Global Arguments world : clear implicits.
End call_pipeline.

(** ** Protocol serializer (app/transports/acs_serializer.py) *)
Module ACSFrameSerializer.

(** The library calls of the serializer: [json.loads], [json.dumps],
    [base64.b64encode(..).decode()], [base64.b64decode] on a [str], and
    the first component of [audioop.ratecv(fragment, width, nchannels,
    inrate, outrate, None)].

    [json.dumps] raises [RecursionError] on a value that is nested too deep
    for the interpreter's stack and [ValueError] on an [int] beyond the digit
    limit of [str]; of what it does otherwise the interface keeps one fact,
    [json_dumps_shallow]: a value whose containers are nested at most two
    deep and whose integers are within the limit is dumped. *)
Class PyLib := {
  json_loads : string -> result json;
  json_dumps : json -> result string;
  b64encode : bytes -> string;
  b64decode : string -> result bytes;
  ratecv : bytes -> Z -> Z -> Z -> Z -> result bytes;
  json_dumps_shallow : forall v,
    (json_depth v <= 2)%nat -> ints_printable v = true ->
    exists text, json_dumps v = Return text
}.

Module InputParams.
Record t := Params {
  sample_rate : Z;
  auto_stop_audio : bool
}.

(** The defaults of the fields. *)
Definition defaults : t := Params 16000 true.
End InputParams.

Record t := Serializer {
  _params : InputParams.t;
  _sample_rate : Z
}.

(** [ACSFrameSerializer(params)]; [None] stands for the default argument. *)
Definition __init__ (params : option InputParams.t) : t :=
  let p := default InputParams.defaults params in
  Serializer p (InputParams.sample_rate p).

(** [setup(frame)], for a [StartFrame]. *)
Definition setup (self : t) (audio_in_sample_rate : Z) : t :=
  Serializer (_params self)
    (if Z.eqb audio_in_sample_rate 0 then _sample_rate self else audio_in_sample_rate).

(** [a or b] where evaluating [b] may raise. *)
Definition or_else (a : json) (b : result json) : result json :=
  if truthy a then Return a else b.

(** [v != s] for a [str] constant [s]. *)
Definition ne_str (v : json) (s : string) : bool :=
  match v with
  | JStr s' => negb (String.eqb s' s)
  | _ => true
  end.

(** [v != n] for an [int] [n]; [True] and [False] compare as 1 and 0, and
    a float by its exact value. *)
Definition ne_int (v : json) (n : Z) : bool :=
  match v with
  | JInt m => negb (Z.eqb m n)
  | JBool b => negb (Z.eqb (if b then 1 else 0) n)
  | JFloat x => negb (float_eq_int x n)
  | _ => true
  end.

(** The values that [deserialize] reads off a message object [m]:
    [m.get("kind") or m.get("Kind")] and
    [m.get("audioData") or m.get("AudioData") or {}]. *)
Definition kind_field (m : list (string * json)) : json :=
  py_or (dict_get m "kind") (dict_get m "Kind").

Definition audio_field (m : list (string * json)) : json :=
  py_or (py_or (dict_get m "audioData") (dict_get m "AudioData")) (JObj []).

(** And off the audio object [a]: [a.get("data") or a.get("Data")] and
    [a.get("sampleRate") or a.get("SampleRate") or 16_000]. *)
Definition data_field (a : list (string * json)) : json :=
  py_or (dict_get a "data") (dict_get a "Data").

Definition rate_field (a : list (string * json)) : json :=
  py_or (py_or (dict_get a "sampleRate") (dict_get a "SampleRate")) (JInt 16000).


Section WithLib.
Context {lib : PyLib}.

(** [base64.b64decode(v)]: anything but a [str] is rejected by the
    argument conversion. *)
Definition py_b64decode (v : json) : result bytes :=
  match v with
  | JStr s => b64decode s
  | _ => Raise TypeError
  end.

(** [audioop.ratecv(pcm, width, nchannels, sr, outrate, None)[0]]: the
    input rate must be an [int]; a float, a string and the like are rejected
    by the argument conversion. *)
Definition py_ratecv (pcm : bytes) (width nchannels : Z) (sr : json) (outrate : Z)
  : result bytes :=
  match sr with
  | JInt n => ratecv pcm width nchannels n outrate
  | JBool b => ratecv pcm width nchannels (if b then 1 else 0) outrate
  | _ => Raise TypeError
  end.

Definition stop_audio_message : json :=
  JObj [("kind", JStr "stopAudio"); ("stopAudio", JObj [])].

Definition audio_envelope (payload : string) (sr : Z) : json :=
  JObj [("kind", JStr "audioData");
        ("audioData",
         JObj [("timestamp", JNull);
               ("participantRawID", JStr "");
               ("data", JStr payload);
               ("silent", JBool false);
               ("sampleRate", JInt sr)])].

Definition serialize (self : t) (f : frame) : result (option string) :=
  match f with
  | EndFrame | CancelFrame | StartInterruptionFrame =>
      if InputParams.auto_stop_audio (_params self)
      then text ← json_dumps stop_audio_message; Return (Some text)
      else Return None
  | AudioFrame _ a =>
      let pcm := audio a in
      let sr := if Z.eqb (sample_rate a) 0 then _sample_rate self
                else sample_rate a in
      '(pcm, sr) ← (if negb (Z.eqb sr 16000)
                    then pcm' ← ratecv pcm 2 1 sr 16000; mret (pcm', 16000)
                    else mret (pcm, sr));
      let payload := b64encode pcm in
      text ← json_dumps (audio_envelope payload sr);
      Return (Some text)
  | TransportMessageFrame message | TransportMessageUrgentFrame message =>
      text ← json_dumps message;
      Return (Some text)
  | _ => Return None
  end.

(** The second half of [deserialize]: from the audio object to the frame. *)
Definition decode_audio (self : t) (audio : json) : result (option frame) :=
  d ← py_get audio "data";
  b64 ← or_else d (py_get audio "Data");
  if negb (truthy b64) then Return None
  else
    pcm ← py_b64decode b64;
    r ← py_get audio "sampleRate";
    r ← or_else r (py_get audio "SampleRate");
    let sr := py_or r (JInt 16000) in
    pcm ← (if ne_int sr (_sample_rate self)
           then py_ratecv pcm 2 1 sr (_sample_rate self)
           else mret pcm);
    Return (Some (InputAudioRawFrame pcm 1 (_sample_rate self))).

(** The body of [deserialize] after [json.loads] has returned [msg]. *)
Definition deserialize_msg (self : t) (msg : json) : result (option frame) :=
  k ← py_get msg "kind";
  kind ← or_else k (py_get msg "Kind");
  if ne_str kind "AudioData" then Return None
  else
    a ← py_get msg "audioData";
    a ← or_else a (py_get msg "AudioData");
    let audio := py_or a (JObj []) in
    decode_audio self audio.

Definition deserialize (self : t) (data : string) : result (option frame) :=
  match json_loads data with
  | Raise e => if is_ValueError e then Return None else Raise e
  | Return msg => deserialize_msg self msg
  end.

End WithLib.
End ACSFrameSerializer.

(** ** A reference instance of the library calls

    Executable definitions of the five library calls, used to run the
    serializer on concrete wire text.  Every statement about the serializer
    below is proved for an arbitrary [PyLib]; this instance only supplies
    concrete inputs.  It covers JSON text of one-byte characters (objects,
    arrays, strings with the one-character escapes, integer and float
    literals, [NaN] and the infinities, and the three literals; [\u] escapes
    are rejected), the standard base64 alphabet with the lenient decoding of
    [binascii.a2b_base64], and the linear interpolation of [audioop.ratecv]
    computed in exact arithmetic.  [json.dumps] gives up with
    [RecursionError] below [recursion_limit] nested containers, the
    interpreter's limit standing for the room that is left on its stack; the
    like limit of [json.loads] is not modelled. *)
Module Reference.

Definition dquote : ascii := ascii_of_N 34.
Definition backslash : ascii := ascii_of_N 92.

(** Wire text is written with an apostrophe where the text has a double
    quote. *)
Fixpoint wire (s : string) : string :=
  match s with
  | EmptyString => EmptyString
  | String c r => String (if Ascii.eqb c "'" then dquote else c) (wire r)
  end.

(** *** base64 *)

Definition b64_char (n : N) : ascii :=
  if (n <? 26)%N then ascii_of_N (65 + n)
  else if (n <? 52)%N then ascii_of_N (97 + (n - 26))
  else if (n <? 62)%N then ascii_of_N (48 + (n - 52))
  else if (n =? 62)%N then "+"%char
  else "/"%char.

Definition b64_index (c : ascii) : option N :=
  let n := N_of_ascii c in
  if (65 <=? n)%N && (n <=? 90)%N then Some (n - 65)%N
  else if (97 <=? n)%N && (n <=? 122)%N then Some (n - 97 + 26)%N
  else if (48 <=? n)%N && (n <=? 57)%N then Some (n - 48 + 52)%N
  else if (n =? 43)%N then Some 62%N
  else if (n =? 47)%N then Some 63%N
  else None.

Fixpoint b64encode_N (l : list N) : string :=
  match l with
  | [] => ""
  | [a] =>
      String (b64_char (a / 4)) (String (b64_char (a mod 4 * 16)) "==")
  | [a; b] =>
      String (b64_char (a / 4))
        (String (b64_char (a mod 4 * 16 + b / 16))
           (String (b64_char (b mod 16 * 4)) "="))
  | a :: b :: c :: rest =>
      String (b64_char (a / 4))
        (String (b64_char (a mod 4 * 16 + b / 16))
           (String (b64_char (b mod 16 * 4 + c / 64))
              (String (b64_char (c mod 64)) (b64encode_N rest))))
  end%N.

Definition b64encode (b : bytes) : string := b64encode_N (Byte.to_N <$> b).

Definition byte_of_N (n : N) : byte := default x00 (Byte.of_N (n mod 256)).

(** The decoding loop of [a2b_base64] without strict mode: characters
    outside the alphabet are skipped, a complete pad sequence ends the
    input, and leftover characters of a quad are an error. *)
Fixpoint a2b_loop (s : string) (quad_pos : nat) (leftchar : N) (pads : nat)
    (out : list N) : result (list N) :=
  match s with
  | EmptyString =>
      match quad_pos with
      | O => Return out
      | _ => Raise BinasciiError
      end
  | String c r =>
      if Ascii.eqb c "="%char then
        if (2 <=? quad_pos)%nat && (4 <=? quad_pos + S pads)%nat then Return out
        else a2b_loop r quad_pos leftchar
               (if (2 <=? quad_pos)%nat then S pads else pads) out
      else
        match b64_index c with
        | None => a2b_loop r quad_pos leftchar pads out
        | Some v =>
            match quad_pos with
            | 0%nat => a2b_loop r 1 v 0 out
            | 1%nat => a2b_loop r 2 (v mod 16) 0 (out ++ [leftchar * 4 + v / 16])
            | 2%nat => a2b_loop r 3 (v mod 4) 0 (out ++ [leftchar * 16 + v / 4])
            | _ => a2b_loop r 0 0 0 (out ++ [leftchar * 64 + v])
            end%N
        end
  end.

Fixpoint is_ascii_str (s : string) : bool :=
  match s with
  | EmptyString => true
  | String c r => (N_of_ascii c <? 128)%N && is_ascii_str r
  end.

Definition b64decode (s : string) : result bytes :=
  if is_ascii_str s
  then fmap (M := list) byte_of_N <$> a2b_loop s 0 0 0 []
  else Raise ValueError.

(** *** JSON text *)

Definition is_ws (c : ascii) : bool :=
  let n := N_of_ascii c in
  (n =? 32)%N || (n =? 9)%N || (n =? 10)%N || (n =? 13)%N.

Definition is_digit (c : ascii) : bool :=
  let n := N_of_ascii c in (48 <=? n)%N && (n <=? 57)%N.

Fixpoint skip_ws (s : string) : string :=
  match s with
  | String c r => if is_ws c then skip_ws r else s
  | EmptyString => s
  end.

Definition unescape (c : ascii) : option ascii :=
  if Ascii.eqb c dquote then Some dquote
  else if Ascii.eqb c backslash then Some backslash
  else if Ascii.eqb c "/" then Some "/"%char
  else if Ascii.eqb c "b" then Some (ascii_of_N 8)
  else if Ascii.eqb c "f" then Some (ascii_of_N 12)
  else if Ascii.eqb c "n" then Some (ascii_of_N 10)
  else if Ascii.eqb c "r" then Some (ascii_of_N 13)
  else if Ascii.eqb c "t" then Some (ascii_of_N 9)
  else None.

(** The characters of a string up to its closing quote. *)
Fixpoint parse_string (s : string) : option (string * string) :=
  match s with
  | EmptyString => None
  | String c r =>
      if Ascii.eqb c dquote then Some (EmptyString, r)
      else if Ascii.eqb c backslash then
        match r with
        | String e r' =>
            ch ← unescape e;
            '(body, rest) ← parse_string r';
            Some (String ch body, rest)
        | EmptyString => None
        end
      else if (N_of_ascii c <? 32)%N then None
      else
        '(body, rest) ← parse_string r;
        Some (String c body, rest)
  end.

Fixpoint parse_digits (s : string) (acc : Z) : Z * string :=
  match s with
  | String c r =>
      if is_digit c
      then parse_digits r (10 * acc + Z.of_N (N_of_ascii c - 48))
      else (acc, s)
  | EmptyString => (acc, s)
  end.

(** The rest of [s] after the literal [prefix]. *)
Fixpoint eat (prefix s : string) : option string :=
  match prefix with
  | EmptyString => Some s
  | String c p =>
      match s with
      | String c' r => if Ascii.eqb c c' then eat p r else None
      | EmptyString => None
      end
  end.

(** The double nearest to [n * 10 ^ e] for [0 <= n], ties to even, with
    the sign [neg]: what [float] makes of a decimal literal.  Beyond
    [10 ^ 400] and below [10 ^ -400] the result is an infinity or a zero. *)
Definition float_of_decimal (neg : bool) (n e : Z) : spec_float :=
  if Z.eqb n 0 then S754_zero neg
  else if Z.ltb 400 e then S754_infinity neg
  else if Z.leb 0 e
  then binary_normalize 53 1024 ((if neg then - n else n) * 10 ^ e) 0 neg
  else if Z.ltb ((Z.log2 n + 1) / 3 + 1 + e) (- 400) then S754_zero neg
  else SFdiv 53 1024 (S754_finite neg (Z.to_pos n) 0)
         (S754_finite false (Z.to_pos (10 ^ (- e))) 0).

(** The exponent part of a number literal: [e] or [E], an optional sign,
    digits. *)
Definition parse_exponent (s : string) : option (Z * string) :=
  match s with
  | String c r =>
      if Ascii.eqb c "e" || Ascii.eqb c "E" then
        let '(eneg, r) :=
          match r with
          | String "-" t => (true, t)
          | String "+" t => (false, t)
          | _ => (false, r)
          end in
        match r with
        | String d _ =>
            if is_digit d
            then let '(x, rest) := parse_digits r 0 in
                 Some (if eneg then - x else x, rest)
            else None
        | EmptyString => None
        end
      else None
  | EmptyString => None
  end.

(** A number: an optional minus sign, then 0 or digits without leading
    zero, then an optional fraction and an optional exponent, each taken only
    when it is complete.  Without fraction and exponent the number is an
    [int], which is rejected beyond the digit limit of [int], otherwise a
    [float]. *)
Definition parse_number (s : string) : option (json * string) :=
  let '(neg, s) :=
    match s with
    | String "-" r => (true, r)
    | _ => (false, s)
    end in
  match s with
  | String c r0 =>
      if is_digit c then
        let '(n, r) := if Ascii.eqb c "0" then (0, r0) else parse_digits s 0 in
        let '(frac, n', r) :=
          match r with
          | String "." (String d _ as r') =>
              if is_digit d
              then let '(n', r2) := parse_digits r' n in
                   (Some (Z.of_nat (String.length r' - String.length r2)), n', r2)
              else (None, n, r)
          | _ => (None, n, r)
          end in
        match frac, parse_exponent r with
        | None, None =>
            if int_printable n then Some (JInt (if neg then - n else n), r) else None
        | _, None => Some (JFloat (float_of_decimal neg n' (- default 0 frac)), r)
        | _, Some (x, r) =>
            Some (JFloat (float_of_decimal neg n' (x - default 0 frac)), r)
        end
      else if neg then rest ← eat "Infinity" s; Some (JFloat (S754_infinity true), rest)
      else None
  | EmptyString => None
  end.

Fixpoint parse_value (fuel : nat) (s : string) {struct fuel}
  : option (json * string) :=
  match fuel with
  | O => None
  | S fuel =>
      match skip_ws s with
      | EmptyString => None
      | String c r as s' =>
          if Ascii.eqb c dquote then
            '(body, rest) ← parse_string r; Some (JStr body, rest)
          else if Ascii.eqb c "[" then
            match skip_ws r with
            | String "]" rest => Some (JArr [], rest)
            | r' => '(items, rest) ← parse_elems fuel r'; Some (JArr items, rest)
            end
          else if Ascii.eqb c "{" then
            match skip_ws r with
            | String "}" rest => Some (JObj [], rest)
            | r' =>
                '(members, rest) ← parse_members fuel r' [];
                Some (JObj members, rest)
            end
          else if Ascii.eqb c "n" then rest ← eat "null" s'; Some (JNull, rest)
          else if Ascii.eqb c "t" then rest ← eat "true" s'; Some (JBool true, rest)
          else if Ascii.eqb c "f" then rest ← eat "false" s'; Some (JBool false, rest)
          else if Ascii.eqb c "N" then rest ← eat "NaN" s'; Some (JFloat S754_nan, rest)
          else if Ascii.eqb c "I" then
            rest ← eat "Infinity" s'; Some (JFloat (S754_infinity false), rest)
          else parse_number s'
      end
  end
with parse_elems (fuel : nat) (s : string) {struct fuel}
  : option (list json * string) :=
  match fuel with
  | O => None
  | S fuel =>
      '(v, r) ← parse_value fuel s;
      match skip_ws r with
      | String "," r' => '(vs, rest) ← parse_elems fuel r'; Some (v :: vs, rest)
      | String "]" rest => Some ([v], rest)
      | _ => None
      end
  end
with parse_members (fuel : nat) (s : string) (acc : list (string * json))
    {struct fuel} : option (list (string * json) * string) :=
  match fuel with
  | O => None
  | S fuel =>
      match skip_ws s with
      | String c r =>
          if Ascii.eqb c dquote then
            '(key, r) ← parse_string r;
            match skip_ws r with
            | String ":" r =>
                '(v, r) ← parse_value fuel r;
                let acc := dict_set key v acc in
                match skip_ws r with
                | String "," r' => parse_members fuel r' acc
                | String "}" rest => Some (acc, rest)
                | _ => None
                end
            | _ => None
            end
          else None
      | EmptyString => None
      end
  end.

Definition json_loads (data : string) : result json :=
  match parse_value (2 * String.length data + 2) data with
  | Some (v, rest) =>
      match skip_ws rest with
      | EmptyString => Return v
      | _ => Raise JSONDecodeError
      end
  | None => Raise JSONDecodeError
  end.

Definition hex_digit (n : N) : ascii :=
  if (n <? 10)%N then ascii_of_N (48 + n) else ascii_of_N (97 + (n - 10)).

Definition escape_char (c : ascii) : string :=
  let n := N_of_ascii c in
  if Ascii.eqb c dquote then String backslash (String dquote "")
  else if Ascii.eqb c backslash then String backslash (String backslash "")
  else if (n =? 10)%N then String backslash "n"
  else if (n =? 13)%N then String backslash "r"
  else if (n =? 9)%N then String backslash "t"
  else if (n =? 8)%N then String backslash "b"
  else if (n =? 12)%N then String backslash "f"
  else if (n <? 32)%N || (127 <? n)%N then
    String backslash
      (String "u" (String "0" (String "0"
         (String (hex_digit (n / 16)) (String (hex_digit (n mod 16)) "")))))
  else String c "".

Fixpoint escape (s : string) : string :=
  match s with
  | EmptyString => EmptyString
  | String c r => escape_char c +:+ escape r
  end.

Definition quoted (s : string) : string :=
  String dquote (escape s +:+ String dquote "").

(** [a / b < 10 ^ p] *)
Definition below_pow10 (a b p : Z) : bool :=
  if Z.leb 0 p then Z.ltb a (b * 10 ^ p) else Z.ltb (a * 10 ^ (- p)) b.

(** The least [p] from the given one on with [a / b < 10 ^ p]. *)
Fixpoint decimal_point (fuel : nat) (a b p : Z) : Z :=
  match fuel with
  | O => p
  | S fuel => if below_pow10 a b p then p else decimal_point fuel a b (p + 1)
  end.

(** The shortest decimal [d * 10 ^ q] that [float] reads back as the
    double [x = a / b], where [10 ^ (p - 1) <= x < 10 ^ p]: for 1, 2, ...
    digits, the two decimals of that many digits around [x] are tried, the
    nearer one first. *)
Fixpoint shortest_decimal (fuel : nat) (x : spec_float) (a b p k : Z) : Z * Z :=
  match fuel with
  | O => (0, 0)
  | S fuel =>
      let q := p - k in
      let num := if Z.leb q 0 then a * 10 ^ (- q) else a in
      let den := if Z.leb q 0 then b else b * 10 ^ q in
      let lo := num / den in
      let hi := lo + 1 in
      let lo_first :=
        match Z.compare (2 * num) ((2 * lo + 1) * den) with
        | Lt => true
        | Gt => false
        | Eq => Z.even lo
        end in
      let d1 := if lo_first then lo else hi in
      let d2 := if lo_first then hi else lo in
      if SFeqb (float_of_decimal false d1 q) x then (d1, q)
      else if SFeqb (float_of_decimal false d2 q) x then (d2, q)
      else shortest_decimal fuel x a b p (k + 1)
  end.

Fixpoint strip_zeros (fuel : nat) (d q : Z) : Z * Z :=
  match fuel with
  | O => (d, q)
  | S fuel =>
      if Z.eqb (d mod 10) 0 then strip_zeros fuel (d / 10) (q + 1) else (d, q)
  end.

(** [repr] of a positive finite double [m * 2 ^ e]: the shortest digits
    that read back as the same double, in exponent form when the decimal
    point lies more than 16 places right or more than 3 places left of the
    first digit, and with [.0] added to a whole number. *)
Definition float_repr_finite (m : positive) (e : Z) : string :=
  let a := Z.pos m * 2 ^ Z.max e 0 in
  let b := 2 ^ Z.max (- e) 0 in
  let p := decimal_point 640 a b (- 324) in
  let '(d, q) := shortest_decimal 17 (S754_finite false m e) a b p 1 in
  let '(d, q) := strip_zeros 20 d q in
  let ds := pretty d in
  let n := String.length ds in
  let decpt := q + Z.of_nat n in
  if Z.leb decpt (- 4) || Z.ltb 16 decpt then
    String.substring 0 1 ds
    +:+ (if (1 <? n)%nat then "." +:+ String.substring 1 (n - 1) ds else "")
    +:+ (if Z.ltb decpt 1 then "e-" else "e+")
    +:+ CallNumberProvider.zfill 2 (pretty (Z.abs (decpt - 1)))
  else if Z.leb decpt 0 then
    "0." +:+ CallNumberProvider.zeros (Z.to_nat (- decpt)) +:+ ds
  else if Z.ltb decpt (Z.of_nat n) then
    String.substring 0 (Z.to_nat decpt) ds +:+ "."
    +:+ String.substring (Z.to_nat decpt) (n - Z.to_nat decpt) ds
  else ds +:+ CallNumberProvider.zeros (Z.to_nat decpt - n) +:+ ".0".

(** A float as [json.dumps] writes it: [float.__repr__], and [NaN],
    [Infinity], [-Infinity]. *)
Definition float_repr (x : spec_float) : string :=
  match x with
  | S754_nan => "NaN"
  | S754_infinity s => if s then "-Infinity" else "Infinity"
  | S754_zero s => if s then "-0.0" else "0.0"
  | S754_finite s m e =>
      (if s then "-" else "") +:+
      match binary_normalize 53 1024 (Z.pos m) e false with
      | S754_finite _ m e => float_repr_finite m e
      | S754_zero _ => "0.0"
      | S754_infinity _ => "Infinity"
      | S754_nan => "NaN"
      end
  end.

(** [json.dumps] with its default separators, with room for [level] more
    nested containers. *)
Fixpoint dumps (level : nat) (v : json) {struct v} : result string :=
  match v with
  | JNull => Return "null"
  | JBool true => Return "true"
  | JBool false => Return "false"
  | JInt n => if int_printable n then Return (pretty n) else Raise ValueError
  | JFloat x => Return (float_repr x)
  | JStr s => Return (quoted s)
  | JArr items =>
      match level with
      | O => Raise RecursionError
      | S level =>
          body ← (fix go (l : list json) : result string :=
                    match l with
                    | [] => Return ""
                    | [x] => dumps level x
                    | x :: rest =>
                        a ← dumps level x; b ← go rest; Return (a +:+ ", " +:+ b)
                    end) items;
          Return ("[" +:+ body +:+ "]")
      end
  | JObj members =>
      match level with
      | O => Raise RecursionError
      | S level =>
          body ← (fix go (l : list (string * json)) : result string :=
                    match l with
                    | [] => Return ""
                    | [(k, x)] => a ← dumps level x; Return (quoted k +:+ ": " +:+ a)
                    | (k, x) :: rest =>
                        a ← dumps level x; b ← go rest;
                        Return (quoted k +:+ ": " +:+ a +:+ ", " +:+ b)
                    end) members;
          Return ("{" +:+ body +:+ "}")
      end
  end.

Definition recursion_limit : nat := 1000.

Definition json_dumps (v : json) : result string := dumps recursion_limit v.

(** *** Resampling *)

(** A little-endian sample of [width] bytes as a signed integer. *)
Fixpoint le_unsigned (l : list N) : Z :=
  match l with
  | [] => 0
  | b :: rest => Z.of_N b + 256 * le_unsigned rest
  end.

Definition le_signed (width : Z) (l : list N) : Z :=
  let u := le_unsigned l in
  if Z.leb (2 ^ (8 * width - 1)) u then u - 2 ^ (8 * width) else u.

Fixpoint le_bytes (width : nat) (v : Z) : list N :=
  match width with
  | O => []
  | S w => Z.to_N (v mod 256) :: le_bytes w (v / 256)
  end.

(** The samples of a fragment, scaled to 32 bits as the C code reads them. *)
Fixpoint samples32 (fuel : nat) (width : Z) (l : list N) : list Z :=
  match fuel, l with
  | S fuel, _ :: _ =>
      le_signed width (take (Z.to_nat width) l) * 2 ^ (32 - 8 * width)
      :: samples32 fuel width (drop (Z.to_nat width) l)
  | _, _ => []
  end.

(** The two inner loops of [ratecv] for one channel with the default
    weights: while [d < 0] read a sample, while [d >= 0] write an
    interpolated one. *)
Fixpoint ratecv_loop (fuel : nat) (inrate outrate d prev cur : Z)
    (input : list Z) (out : list Z) : list Z :=
  match fuel with
  | O => out
  | S fuel =>
      if Z.ltb d 0 then
        match input with
        | [] => out
        | x :: rest => ratecv_loop fuel inrate outrate (d + outrate) cur x rest out
        end
      else
        let cur_o := Z.quot (prev * d + cur * (outrate - d)) outrate in
        ratecv_loop fuel inrate outrate (d - inrate) prev cur input (out ++ [cur_o])
  end.

Definition ratecv (fragment : bytes) (width nchannels inrate outrate : Z)
  : result bytes :=
  if negb (Z.leb 1 width && Z.leb width 4) then Raise AudioopError
  else if Z.ltb nchannels 1 then Raise AudioopError
  else if negb (Z.eqb (Z.of_nat (length fragment) mod (width * nchannels)) 0)
  then Raise AudioopError
  else if Z.leb inrate 0 || Z.leb outrate 0 then Raise AudioopError
  else if negb (Z.eqb nchannels 1) then Raise AudioopError
  else
    let g := Z.gcd inrate outrate in
    let inrate := inrate / g in
    let outrate := outrate / g in
    let input := samples32 (length fragment) width (Byte.to_N <$> fragment) in
    let n := Z.of_nat (length input) in
    let fuel := Z.to_nat (n + n * outrate / inrate + 2) in
    let out := ratecv_loop fuel inrate outrate (- outrate) 0 0 input [] in
    Return (byte_of_N <$>
              mjoin ((fun v => le_bytes (Z.to_nat width) (v / 2 ^ (32 - 8 * width))) <$> out)).

(** *** The instance *)

Lemma dumps_returns level v :
  (json_depth v <= level)%nat -> ints_printable v = true ->
  exists text, dumps level v = Return text.
Proof.
  revert v. induction level as [|level IH]; intros v Hd Hi.
  - destruct v as [|[]| | | | |]; simpl in *; try lia; eauto.
    rewrite Hi. eauto.
  - destruct v as [|[]| | | |items|members]; simpl in *; eauto.
    + rewrite Hi. eauto.
    + assert (Hgo : exists body,
        (fix go (l : list json) : result string :=
           match l with
           | [] => Return ""
           | [x] => dumps level x
           | x :: rest =>
               a ← dumps level x; b ← go rest; Return (a +:+ ", " +:+ b)
           end) items = Return body).
      { apply le_S_n in Hd. induction items as [|x rest IHr]; [eauto|].
        simpl in Hd, Hi. apply andb_prop in Hi as [Hx Hr].
        destruct (IH x) as [a Ha]; [lia|done|].
        destruct IHr as [b Hb]; [lia|done|].
        destruct rest as [|y rest]; [eauto|].
        rewrite Ha, Hb. simpl. eauto. }
      destruct Hgo as [body ->]. simpl. eauto.
    + assert (Hgo : exists body,
        (fix go (l : list (string * json)) : result string :=
           match l with
           | [] => Return ""
           | [(k, x)] => a ← dumps level x; Return (quoted k +:+ ": " +:+ a)
           | (k, x) :: rest =>
               a ← dumps level x; b ← go rest;
               Return (quoted k +:+ ": " +:+ a +:+ ", " +:+ b)
           end) members = Return body).
      { apply le_S_n in Hd. induction members as [|[k x] rest IHr]; [eauto|].
        simpl in Hd, Hi. apply andb_prop in Hi as [Hx Hr].
        destruct (IH x) as [a Ha]; [lia|done|].
        destruct IHr as [b Hb]; [lia|done|].
        destruct rest as [|y rest]; [rewrite Ha; simpl; eauto|].
        rewrite Ha, Hb. simpl. eauto. }
      destruct Hgo as [body ->]. simpl. eauto.
Qed.

Lemma json_dumps_shallow v :
  (json_depth v <= 2)%nat -> ints_printable v = true ->
  exists text, json_dumps v = Return text.
Proof.
  intros Hd Hi. apply dumps_returns; [|done]. unfold recursion_limit. lia.
Qed.

#[export] Instance python : ACSFrameSerializer.PyLib := {|
  ACSFrameSerializer.json_loads := json_loads;
  ACSFrameSerializer.json_dumps := json_dumps;
  ACSFrameSerializer.b64encode := b64encode;
  ACSFrameSerializer.b64decode := b64decode;
  ACSFrameSerializer.ratecv := ratecv;
  ACSFrameSerializer.json_dumps_shallow := json_dumps_shallow
|}.

End Reference.

(** * Properties *)

(** ** Turn gate *)
Section TurnGateFacts.
Import TurnGateProcessor.

Lemma run_app g fs1 fs2 :
  run g (fs1 ++ fs2) =
  (fst (run (fst (run g fs1)) fs2), snd (run g fs1) ++ snd (run (fst (run g fs1)) fs2)).
Proof.
  revert g. induction fs1 as [|[f d] fs1 IH]; intros g; simpl.
  - by destruct (run g fs2).
  - destruct (process_frame g f d) as [g1 out1]. rewrite IH.
    destruct (run g1 fs1) as [g2 out2]. simpl.
    destruct (run g2 fs2) as [g3 out3]. simpl. by rewrite app_assoc.
Qed.

(** While the gate is on and muted, raw audio is counted and not passed. *)
Lemma run_audio_muted n s fs :
  all_raw_audio fs ->
  run (Gate true true n s) fs = (Gate true true (n + Z.of_nat (length fs)) s, []).
Proof.
  intros H. revert n. induction H as [|[f d] fs Hf _ IH]; intros n; simpl.
  - by rewrite Z.add_0_r.
  - simpl in Hf. unfold process_frame. simpl.
    replace (transition (Gate true true n s) f) with (Gate true true n s)
      by (by destruct f as [| | | |[] ?| | | | | | | | | | |]).
    simpl. rewrite Hf. rewrite IH. do 2 f_equal. lia.
Qed.

(** While the gate is on and not muted, raw audio passes and nothing
    changes. *)
Lemma run_audio_open n s fs :
  all_raw_audio fs ->
  run (Gate true false n s) fs = (Gate true false n s, fs).
Proof.
  intros H. induction H as [|[f d] fs Hf _ IH]; simpl; [done|].
  simpl in Hf. unfold process_frame. simpl.
  replace (transition (Gate true false n s) f) with (Gate true false n s)
    by (by destruct f as [| | | |[] ?| | | | | | | | | | |]).
  simpl. by rewrite IH.
Qed.

(** A reachable gate is muted only after a caller-started event. *)
Lemma reachable_mute_armed g :
  reachable g -> _mute g = true -> _saw_user_since_enable g = true.
Proof.
  induction 1 as [| | |g f d _ IH]; try done.
  unfold process_frame. destruct g as [e m n s]. simpl in *.
  destruct e; simpl; [|done].
  destruct f as [| | | |[] ?| | | | | | | | | | |]; simpl;
    destruct m, s; simpl; auto.
Qed.

Lemma process_user_started m n s d :
  process_frame (Gate true m n s) UserStartedSpeakingFrame d
  = (Gate true m n true, [(UserStartedSpeakingFrame, d)]).
Proof. unfold process_frame. simpl. by rewrite andb_false_r. Qed.

Lemma process_user_stopped_armed m n d :
  process_frame (Gate true m n true) UserStoppedSpeakingFrame d
  = (Gate true true 0 true, [(UserStoppedSpeakingFrame, d)]).
Proof. done. Qed.

Lemma process_user_stopped_unarmed n d :
  process_frame (Gate true false n false) UserStoppedSpeakingFrame d
  = (Gate true false n false, [(UserStoppedSpeakingFrame, d)]).
Proof. done. Qed.

Lemma process_bot_stopped m n s d :
  process_frame (Gate true m n s) BotStoppedSpeakingFrame d
  = (Gate true false n false, [(BotStoppedSpeakingFrame, d)]).
Proof. done. Qed.

(** C5: an enabled gate that processes caller-started, caller-stopped, N raw
    audio frames and assistant-stopped drops all N audio frames (they are
    counted, and only the three control frames come out) and forwards the
    audio that arrives after assistant-stopped; on a reachable gate with no
    caller-started event since the last reset, a caller-stopped event mutes
    nothing and the audio after it is forwarded. *)
Theorem turn_gate_sequence g0 g1 (audio after : list pushed) d1 d2 d3 :
  _enabled g0 = true ->
  all_raw_audio audio ->
  all_raw_audio after ->
  reachable g1 ->
  _enabled g1 = true ->
  _saw_user_since_enable g1 = false ->
  let turn := [(UserStartedSpeakingFrame, d1); (UserStoppedSpeakingFrame, d2)] ++ audio in
  (snd (run g0 turn) = [(UserStartedSpeakingFrame, d1); (UserStoppedSpeakingFrame, d2)]
   /\ _mute (fst (run g0 turn)) = true
   /\ _dropped (fst (run g0 turn)) = Z.of_nat (length audio))
  /\ snd (run g0 (turn ++ [(BotStoppedSpeakingFrame, d3)] ++ after))
     = [(UserStartedSpeakingFrame, d1); (UserStoppedSpeakingFrame, d2);
        (BotStoppedSpeakingFrame, d3)] ++ after
  /\ run g1 ((UserStoppedSpeakingFrame, d2) :: after)
     = (g1, (UserStoppedSpeakingFrame, d2) :: after).
Proof.
  intros He Ha Hb Hr He1 Hs1 turn.
  assert (Hturn : run g0 turn =
    (Gate true true (Z.of_nat (length audio)) true,
     [(UserStartedSpeakingFrame, d1); (UserStoppedSpeakingFrame, d2)])).
  { unfold turn. destruct g0 as [e m n s]. simpl in He. subst e.
    cbn [run app]. rewrite process_user_started, process_user_stopped_armed.
    rewrite (run_audio_muted 0 true audio Ha). by rewrite Z.add_0_l. }
  split; [by rewrite Hturn|]. split.
  - rewrite run_app, Hturn. cbn [run app fst snd].
    rewrite process_bot_stopped.
    by rewrite (run_audio_open _ false after Hb).
  - pose proof (reachable_mute_armed g1 Hr) as Hm.
    destruct g1 as [e m n s]. simpl in *. subst e s.
    destruct m; [by specialize (Hm eq_refl)|].
    rewrite process_user_stopped_unarmed.
    by rewrite (run_audio_open n false after Hb).
Qed.

Lemma turn_gate_sequence_witness :
  let a := (AudioFrame InputAudioRaw (AudioData [x01; x02] 16000 1), DOWNSTREAM) in
  let u := (AudioFrame UserAudioRaw (AudioData [x03; x04] 16000 1), DOWNSTREAM) in
  snd (run __init__ ([(UserStartedSpeakingFrame, DOWNSTREAM);
                  (UserStoppedSpeakingFrame, DOWNSTREAM)] ++ [a; u; a] ++
                 [(BotStoppedSpeakingFrame, DOWNSTREAM)] ++ [u; a]))
  = [(UserStartedSpeakingFrame, DOWNSTREAM); (UserStoppedSpeakingFrame, DOWNSTREAM);
     (BotStoppedSpeakingFrame, DOWNSTREAM)] ++ [u; a].
Proof.
  intros a u.
  refine (proj1 (proj2 (turn_gate_sequence __init__ __init__ [a; u; a] [u; a]
            DOWNSTREAM DOWNSTREAM DOWNSTREAM _ _ _ _ _ _))).
  - reflexivity.
  - repeat constructor.
  - repeat constructor.
  - constructor.
  - reflexivity.
  - reflexivity.
Defined.

(** C9: in every state a frame that is not raw caller audio is forwarded
    unchanged, a frame is dropped only if it is raw caller audio and the gate
    is enabled and muted, and otherwise it comes out as it went in; [disable]
    resets the state (mute off, counter cleared, armed cleared), after which
    every sequence of frames, raw audio included, is forwarded with no change
    of state, until [enable] turns the gate on again. *)
Theorem turn_gate_pass_through g f d (fs : list pushed) :
  (is_raw_input_audio f = false -> snd (process_frame g f d) = [(f, d)])
  /\ (snd (process_frame g f d) = [] ->
      is_raw_input_audio f = true /\ _enabled g = true /\ _mute g = true)
  /\ (snd (process_frame g f d) = [] \/ snd (process_frame g f d) = [(f, d)])
  /\ disable g = Gate false false 0 false
  /\ run (disable g) fs = (disable g, fs)
  /\ _enabled (enable (disable g)) = true.
Proof.
  split; [|split; [|split; [|split; [done|split; [|done]]]]].
  - intros Hf. unfold process_frame.
    destruct (_enabled g); simpl; [|done].
    by rewrite Hf, andb_false_r.
  - unfold process_frame. destruct g as [[] m n s]; simpl; [|done].
    destruct f as [| | | |[] ?| | | | | | | | | | |]; simpl;
      destruct m, s; simpl; try done.
  - unfold process_frame. destruct (_enabled g); simpl; [|by right].
    destruct (_mute (transition g f) && is_raw_input_audio f); simpl; auto.
  - induction fs as [|[f' d'] fs IH]; simpl; [done|].
    by rewrite IH.
Qed.

End TurnGateFacts.

(** ** Random choice and the round-robin cursor *)

(** [random.choice] on a non-empty sequence returns one of its members,
    whatever the generator draws. *)
Lemma choice_returns {A} (seq : list A) g :
  seq <> [] -> exists x g', random.choice seq g = (Return x, g') /\ x ∈ seq.
Proof.
  intros Hne. unfold random.choice.
  destruct seq as [|a l]; [done|].
  set (l' := a :: l) in *. unfold random.randbelow.
  destruct (l' !! _) as [x|] eqn:Hx.
  - exists x. eexists. split; [done|]. by eapply list_elem_of_lookup_2.
  - apply lookup_ge_None in Hx.
    pose proof (Nat.mod_upper_bound (random.draws g (random.drawn g)) (length l')).
    simpl in *. lia.
Qed.

Section CycleFacts.
Context {A : Type}.
Implicit Types (xs : list A) (k : nat).

Lemma succ_mod k n :
  (0 < n)%nat ->
  Nat.modulo (S k) n
  = if decide (n <= S (Nat.modulo k n))%nat then 0%nat else S (Nat.modulo k n).
Proof.
  intros Hn.
  pose proof (Nat.mod_upper_bound k n ltac:(lia)) as Hr.
  pose proof (Nat.div_mod_eq k n) as Hk.
  case_decide as Hc; symmetry.
  - apply (Nat.mod_unique _ _ (S (k / n))); lia.
  - apply (Nat.mod_unique _ _ (k / n)); lia.
Qed.

Lemma cycle_new_at xs : itertools.cycle_new xs = itertools.cycle_at xs 0.
Proof.
  unfold itertools.cycle_new, itertools.cycle_at.
  case_decide as Hc; [by rewrite drop_0|].
  destruct xs; [done|simpl in Hc; lia].
Qed.

(** The [k]-th call of [next] hands out the element at [k mod len]. *)
Lemma next_cycle_at xs k x :
  xs !! Nat.modulo k (length xs) = Some x ->
  itertools.next (itertools.cycle_at xs k) = (Return x, itertools.cycle_at xs (S k)).
Proof.
  intros Hx.
  assert (Hn : (0 < length xs)%nat).
  { apply lookup_lt_Some in Hx. lia. }
  unfold itertools.cycle_at.
  destruct (decide (k < length xs)%nat) as [Hk|Hk].
  - rewrite Nat.mod_small in Hx by done.
    unfold itertools.next. simpl.
    rewrite (drop_S _ _ _ Hx). f_equal.
    rewrite <-(take_S_r _ _ _ Hx).
    case_decide as Hk'; [done|].
    assert (S k = length xs) as Hlen by lia.
    rewrite Hlen, Nat.Div0.mod_same, drop_all, firstn_all. done.
  - unfold itertools.next. simpl. rewrite Hx.
    rewrite (decide_False (P := (S k < length xs)%nat)) by lia.
    by rewrite (succ_mod k _ Hn).
Qed.

(** On an empty sequence [next] raises and the iterator stays as it is. *)
Lemma next_cycle_empty :
  itertools.next (itertools.cycle_new (@nil A))
  = (Raise StopIteration, itertools.cycle_new []).
Proof. done. Qed.

End CycleFacts.

(** ** Latency injector *)
Section InjectorFacts.
Context {seconds : Type}.
Import LatencyInjector.
Implicit Types (p : process seconds) (self : t seconds) (d : seconds).

Lemma pick_cached p self d :
  _latency_seconds self = Some d ->
  _pick_latency (p, self) = (Return d, (p, self), []).
Proof.
  intros H. unfold _pick_latency, mbind, proc_bind, get_state. simpl.
  by rewrite H.
Qed.

(** The first pick: one draw by the instance's strategy, cached when it
    succeeds. *)
Lemma pick_fresh p self :
  _latency_seconds self = None ->
  _pick_latency (p, self) =
  match (if String.eqb (_strategy self) "random"
         then random_choice (_choices self) p
         else _next_latency_round_robin p) with
  | (Return d, p') => (Return d, (p', with_latency_seconds self d), [])
  | (Raise StopIteration, p') => (Raise RuntimeError, (p', self), [])
  | (Raise e, p') => (Raise e, (p', self), [])
  end.
Proof.
  intros H. unfold _pick_latency, mbind, proc_bind, get_state. simpl.
  rewrite H. unfold call_in_coroutine.
  destruct (String.eqb (_strategy self) "random");
    [destruct (random_choice _ p) as [[d|e] p']
    |destruct (_next_latency_round_robin p) as [[d|e] p']];
    simpl; try done; by destruct e.
Qed.

Lemma pick_returns p self d st tr :
  _pick_latency (p, self) = (Return d, st, tr) ->
  tr = [] /\ _latency_seconds (snd st) = Some d /\ _busy (snd st) = _busy self.
Proof.
  destruct (_latency_seconds self) as [v|] eqn:Hl.
  - rewrite (pick_cached _ _ _ Hl). by intros [= <- <- <-].
  - rewrite (pick_fresh _ _ Hl).
    destruct (if String.eqb _ _ then _ else _) as [[v|e] p'].
    + by intros [= <- <- <-].
    + by destruct e.
Qed.

Lemma pick_preserves_busy p self :
  _busy (snd (snd (fst (_pick_latency (p, self))))) = _busy self.
Proof.
  destruct (_latency_seconds self) as [v|] eqn:Hl.
  - by rewrite (pick_cached _ _ _ Hl).
  - rewrite (pick_fresh _ _ Hl).
    destruct (if String.eqb _ _ then _ else _) as [[v|e] p']; [done|].
    by destruct e.
Qed.

Lemma pick_idempotent (st st' : state seconds) d tr :
  _pick_latency st = (Return d, st', tr) ->
  _pick_latency st' = (Return d, st', []).
Proof.
  destruct st as [p self], st' as [p' self']. intros H.
  apply pick_returns in H as (_ & H & _). by apply pick_cached.
Qed.

(** A draw under the random strategy returns a member of the instance's
    candidates. *)
Lemma random_choice_returns (choices : list seconds) p :
  choices <> [] ->
  exists d p', random_choice choices p = (Return d, p') /\ d ∈ choices.
Proof.
  intros Hne. unfold random_choice.
  destruct (choice_returns choices (gen p) Hne) as (d & g' & -> & Hin).
  by exists d; eexists.
Qed.

Lemma new_session_round_robin (choices : list seconds) g k :
  choices <> [] ->
  new_session "round_robin" (Process choices (itertools.cycle_at choices k) g)
  = (rotation choices k, Process choices (itertools.cycle_at choices (S k)) g).
Proof.
  intros Hne. unfold new_session. simpl.
  rewrite pick_fresh by done. simpl.
  unfold _next_latency_round_robin, rotation. simpl.
  destruct (choices !! _) as [x|] eqn:Hx.
  - by rewrite (next_cycle_at _ _ _ Hx).
  - apply lookup_ge_None in Hx.
    pose proof (Nat.mod_upper_bound k (length choices)).
    destruct choices; [done|simpl in *; lia].
Qed.

Lemma sessions_round_robin (choices : list seconds) g n k :
  choices <> [] ->
  fst (sessions "round_robin" n (Process choices (itertools.cycle_at choices k) g))
  = rotation choices <$> seq k n.
Proof.
  intros Hne. revert k. induction n as [|n IH]; intros k; [done|].
  cbn [sessions]. rewrite new_session_round_robin by done.
  specialize (IH (S k)).
  destruct (sessions _ n _) as [rs p2]. simpl in *. by rewrite IH.
Qed.

Lemma sessions_round_robin_empty g n :
  sessions "round_robin" n (import_module (@nil seconds) g)
  = (replicate n (Raise RuntimeError), import_module [] g).
Proof.
  induction n as [|n IH]; [done|]. cbn [sessions].
  change (new_session "round_robin" (import_module (@nil seconds) g))
    with (@Raise seconds RuntimeError, import_module (@nil seconds) g).
  cbv iota beta. by rewrite IH.
Qed.

(** C7: a second call of [_pick_latency] returns the value of the first and
    changes nothing; the first call of an instance under the random strategy
    selects a member of its candidates and caches it; and under round robin
    session number [i] of a process gets candidate [i mod len] of the
    configured candidates, so the delays rotate and start again from the
    first one. *)
Theorem pick_latency_cached_and_rotating (st st' : state seconds) d tr
    (choices : list seconds) g n :
  _pick_latency st = (Return d, st', tr) ->
  _pick_latency st' = (Return d, st', [])
  /\ (forall p self,
        _latency_seconds self = None -> _strategy self = "random" ->
        _choices self <> [] ->
        exists d' p', d' ∈ _choices self /\
          _pick_latency (p, self) = (Return d', (p', with_latency_seconds self d'), []))
  /\ fst (sessions "round_robin" n (import_module choices g))
     = rotation choices <$> seq 0 n.
Proof.
  intros H. split; [by eapply pick_idempotent|]. split.
  - intros p self Hl Hs Hc. rewrite pick_fresh, Hs by done. simpl.
    destruct (random_choice_returns (_choices self) p Hc) as (d' & p' & -> & Hin).
    by exists d', p'.
  - destruct choices as [|x xs].
    + rewrite sessions_round_robin_empty. simpl.
      assert (Hrot : forall k, rotation (@nil seconds) k = Raise RuntimeError)
        by (intros k; unfold rotation; by rewrite lookup_nil).
      generalize 0%nat. induction n as [|n IH]; intros k; [done|].
      cbn [replicate seq fmap list_fmap]. by rewrite Hrot, (IH (S k)).
    + unfold import_module. rewrite cycle_new_at. by apply sessions_round_robin.
Qed.

Ltac proc_unfold :=
  unfold process_frame, mbind, mret, proc_bind, proc_ret, push_frame,
    asyncio_sleep, await, set_busy, get_state.

Lemma pick_trace p self : snd (_pick_latency (p, self)) = [].
Proof.
  destruct (_latency_seconds self) as [v|] eqn:Hl.
  - by rewrite (pick_cached _ _ _ Hl).
  - rewrite (pick_fresh _ _ Hl).
    destruct (if String.eqb _ _ then _ else _) as [[v|e] p']; [done|].
    by destruct e.
Qed.

(** A downstream context frame: mute, set busy, pick, sleep, forward; an
    exception of the pick stops the coroutine after the mute. *)
Lemma process_context_frame p self f :
  is_context_frame f = true ->
  process_frame f DOWNSTREAM (p, self)
  = match _pick_latency (p, with_busy self true) with
    | (Return d, st, _) =>
        (Return tt, st,
         [(Push (STTMuteFrame true) UPSTREAM, _busy self);
          (Sleep d, true);
          (Push f DOWNSTREAM, true)])
    | (Raise e, st, _) =>
        (Raise e, st, [(Push (STTMuteFrame true) UPSTREAM, _busy self)])
    end.
Proof.
  intros Hctx.
  assert (is_TTSSpeakFrame f = false) as Htts by (by destruct f).
  pose proof (pick_preserves_busy p (with_busy self true)) as Hb.
  pose proof (pick_trace p (with_busy self true)) as Ht.
  proc_unfold. simpl. rewrite Hctx, Htts. simpl.
  destruct (_pick_latency (p, with_busy self true)) as [[[d|e] st] tr].
  - simpl in *. subst tr. rewrite Hb. simpl.
    by rewrite ?andb_false_r, ?Hb.
  - simpl in *. by subst tr.
Qed.

(** Every other frame that is not an unmuting [TTSSpeakFrame]: forwarded,
    nothing else. *)
Lemma process_other_frame p self f direction :
  is_downstream direction
    && (is_context_frame f || _busy self && is_TTSSpeakFrame f) = false ->
  process_frame f direction (p, self)
  = (Return tt, (p, self), [(Push f direction, _busy self)]).
Proof.
  intros Hc. proc_unfold.
  destruct (is_downstream direction); simpl in *; cbn [fst snd].
  - apply orb_false_elim in Hc as [-> Hc]. simpl. cbn [fst snd].
    rewrite andb_true_r, Hc. by simpl.
  - by rewrite andb_false_r.
Qed.

(** C6: on a downstream context frame the injector pushes the mute signal
    upstream, sets [_busy], sleeps for the picked delay [d] with [_busy] set,
    and then forwards the frame, still busy and with no unmute signal; on a
    downstream [TTSSpeakFrame] seen while busy it pushes the unmute signal,
    clears [_busy] and forwards the frame; in every other case it only
    forwards the frame and leaves the state as it is.  So [_busy] goes from
    set to clear, and an unmute signal that is not the processed frame itself
    is pushed, only for a downstream [TTSSpeakFrame] seen while busy. *)
Theorem injector_mute_hold_release p self f direction d st tr :
  _pick_latency (p, with_busy self true) = (Return d, st, tr) ->
  (is_context_frame f = true ->
   process_frame f DOWNSTREAM (p, self)
   = (Return tt, st,
      [(Push (STTMuteFrame true) UPSTREAM, _busy self);
       (Sleep d, true);
       (Push f DOWNSTREAM, true)])
   /\ _busy (snd st) = true /\ _latency_seconds (snd st) = Some d)
  /\ (is_TTSSpeakFrame f = true -> _busy self = true ->
      process_frame f DOWNSTREAM (p, self)
      = (Return tt, (p, with_busy self false),
         [(Push (STTMuteFrame false) UPSTREAM, true);
          (Push f DOWNSTREAM, false)]))
  /\ (is_downstream direction
        && (is_context_frame f || _busy self && is_TTSSpeakFrame f) = false ->
      process_frame f direction (p, self)
      = (Return tt, (p, self), [(Push f direction, _busy self)]))
  /\ (_busy self = true ->
      _busy (snd (snd (fst (process_frame f direction (p, self))))) = false ->
      is_downstream direction = true /\ is_TTSSpeakFrame f = true)
  /\ (forall b,
      (Push (STTMuteFrame false) UPSTREAM, b)
        ∈ snd (process_frame f direction (p, self)) ->
      f = STTMuteFrame false
      \/ (is_downstream direction = true /\ is_TTSSpeakFrame f = true
          /\ _busy self = true)).
Proof.
  intros Hpick.
  assert (HB : is_TTSSpeakFrame f = true -> _busy self = true ->
    process_frame f DOWNSTREAM (p, self)
    = (Return tt, (p, with_busy self false),
       [(Push (STTMuteFrame false) UPSTREAM, true); (Push f DOWNSTREAM, false)])).
  { intros Htts Hbusy.
    assert (is_context_frame f = false) as Hctx by (by destruct f).
    proc_unfold. simpl. rewrite Hctx. simpl. cbn [fst snd].
    rewrite Hbusy, Htts. simpl. by rewrite Hbusy. }
  split; [|split; [done|split; [apply process_other_frame|split]]].
  - intros Hctx. rewrite (process_context_frame _ _ _ Hctx), Hpick.
    destruct (pick_returns _ _ _ _ _ Hpick) as (_ & Hl & Hb). by simpl in Hb.
  - intros Hbusy Hclear.
    destruct (is_downstream direction
              && (is_context_frame f || _busy self && is_TTSSpeakFrame f)) eqn:Hc.
    + destruct direction; [|done]. split; [done|].
      destruct (is_context_frame f) eqn:Hctx.
      * rewrite (process_context_frame _ _ _ Hctx) in Hclear.
        pose proof (pick_preserves_busy p (with_busy self true)) as Hb.
        destruct (_pick_latency (p, with_busy self true)) as [[[d'|e] st'] tr'];
          simpl in *; congruence.
      * simpl in Hc. by rewrite Hbusy in Hc.
    + rewrite (process_other_frame _ _ _ _ Hc) in Hclear. simpl in Hclear.
      congruence.
  - intros b Hin.
    destruct (is_downstream direction
              && (is_context_frame f || _busy self && is_TTSSpeakFrame f)) eqn:Hc.
    + destruct direction; [|done].
      destruct (is_context_frame f) eqn:Hctx.
      * rewrite (process_context_frame _ _ _ Hctx) in Hin.
        destruct (_pick_latency (p, with_busy self true)) as [[[d'|e] st'] tr'];
          simpl in Hin;
          repeat (apply elem_of_cons in Hin as [Hin|Hin]; [discriminate Hin|]);
          by apply elem_of_nil in Hin.
      * simpl in Hc. apply andb_true_iff in Hc as [Hbusy Htts]. by right.
    + rewrite (process_other_frame _ _ _ _ Hc) in Hin. simpl in Hin.
      apply list_elem_of_singleton in Hin. left. congruence.
Qed.

(** C8: the mute query is true exactly when the assistant-speaking flag or
    the injector's [busy] is true; after the injector has processed a
    downstream [TTSSpeakFrame] its [busy] is false, so the query is false
    unless the filter's own flag is set. *)
Theorem should_mute_iff (inj : t seconds) (flt : SttMute.STTMuteFilter) p txt :
  (SttMute.should_mute_callback inj flt = true <->
   SttMute._bot_is_speaking flt = true \/ busy inj = true)
  /\ busy (snd (snd (fst (process_frame (TTSSpeakFrame txt) DOWNSTREAM (p, inj))))) = false
  /\ (SttMute._bot_is_speaking flt = false ->
      SttMute.should_mute_callback
        (snd (snd (fst (process_frame (TTSSpeakFrame txt) DOWNSTREAM (p, inj))))) flt
      = false).
Proof.
  assert (Hb : busy (snd (snd (fst (process_frame (TTSSpeakFrame txt) DOWNSTREAM (p, inj)))))
               = false).
  { proc_unfold. simpl. cbn [fst snd]. destruct (_busy inj) eqn:Hbusy; by simpl. }
  split; [|split; [done|]].
  - unfold SttMute.should_mute_callback. apply orb_true_iff.
  - intros Hf. unfold SttMute.should_mute_callback. by rewrite Hf, Hb.
Qed.

End InjectorFacts.

Lemma injector_mute_hold_release_witness :
  let choices := ["3.0"; "7.0"; "0.1"] in
  let p := LatencyInjector.import_module choices (random.Rng (fun k => k) 0) in
  let self := LatencyInjector.Injector choices "round_robin" None false in
  let f := OpenAILLMContextFrame (JArr []) in
  snd (LatencyInjector.process_frame f DOWNSTREAM (p, self))
  = [(LatencyInjector.Push (STTMuteFrame true) UPSTREAM, false);
     (LatencyInjector.Sleep "3.0", true);
     (LatencyInjector.Push f DOWNSTREAM, true)].
Proof.
  intros choices p self f.
  refine (f_equal snd (proj1 (proj1 (injector_mute_hold_release p self f DOWNSTREAM "3.0"
    (LatencyInjector.Process choices (itertools.cycle_at choices 1) (LatencyInjector.gen p),
     LatencyInjector.Injector choices "round_robin" (Some "3.0") true) [] _) _))).
  - reflexivity.
  - reflexivity.
Defined.

Lemma pick_latency_cached_and_rotating_witness :
  let choices := ["3.0"; "7.0"; "0.1"] in
  let p := LatencyInjector.import_module choices (random.Rng (fun k => (5 * k + 2)%nat) 0) in
  fst (LatencyInjector.sessions "round_robin" 7 p)
  = Return <$> ["3.0"; "7.0"; "0.1"; "3.0"; "7.0"; "0.1"; "3.0"].
Proof.
  intros choices p.
  refine (proj2 (proj2 (pick_latency_cached_and_rotating
    (p, LatencyInjector.Injector choices "round_robin" None false)
    (LatencyInjector.Process choices (itertools.cycle_at choices 1) (LatencyInjector.gen p),
     LatencyInjector.Injector choices "round_robin" (Some "3.0") false)
    "3.0" [] choices (LatencyInjector.gen p) 7 _))).
  reflexivity.
Defined.

(** ** Call-number allocator *)
Section CallNumberFacts.
Import CallNumberProvider.

Lemma digits_value_pretty_go (x : N) (s : string) :
  digits_value 0 (pretty_N_go x s) = digits_value x s.
Proof.
  revert s. induction (N.lt_wf_0 x) as [x _ IH]; intros s.
  destruct (decide (x = 0)%N) as [->|Hx]; [done|].
  rewrite pretty_N_go_step by lia.
  rewrite IH by (apply N.div_lt; lia). cbn [digits_value].
  f_equal.
  assert (Hc : (N_of_ascii (pretty_N_char (x `mod` 10)) - 48 = x `mod` 10)%N).
  { pose proof (N.mod_upper_bound x 10 ltac:(lia)) as Hlt.
    destruct (x `mod` 10)%N as [|p]; [done|].
    do 4 (destruct p as [p|p|]; try done; try lia). }
  rewrite Hc. pose proof (N.div_mod x 10 ltac:(lia)). lia.
Qed.

Lemma digits_value_pretty (n : N) : digits_value 0 (pretty n) = n.
Proof.
  unfold pretty, pretty_N. case_decide as Hn; [by subst|].
  by rewrite digits_value_pretty_go.
Qed.

Lemma digits_value_zfill w (s : string) :
  digits_value 0 (zfill w s) = digits_value 0 s.
Proof.
  unfold zfill. induction (w - String.length s)%nat as [|k IH]; [done|].
  simpl. apply IH.
Qed.

Lemma pretty_N_not_dash (n : N) r : pretty n <> String "-" r.
Proof.
  unfold pretty, pretty_N. case_decide; [done|].
  by apply (pretty_N_go_ne_dash n "" r).
Qed.

Lemma zfill_not_dash w (n : N) r : zfill w (pretty n) <> String "-" r.
Proof.
  unfold zfill. destruct (w - _)%nat; simpl; [apply pretty_N_not_dash|done].
Qed.

(** [int(f"{i:03d}") == i] *)
Lemma int_of_string_format_03d (i : Z) : int_of_string (format_03d i) = i.
Proof.
  assert (Hnn : forall n : N, int_of_string (zfill 3 (pretty n)) = Z.of_N n).
  { intros n.
    pose proof (digits_value_zfill 3 (pretty n)) as Hv.
    rewrite digits_value_pretty in Hv.
    pose proof (zfill_not_dash 3 n) as Hd.
    destruct (zfill 3 (pretty n)) as [|c r]; [by rewrite <-Hv|].
    destruct (decide (c = "-"%char)) as [->|Hc]; [by destruct (Hd r)|].
    rewrite <-Hv. clear Hv Hd.
    destruct c as [[] [] [] [] [] [] [] []]; done. }
  destruct i as [|p|p].
  - apply (Hnn 0%N).
  - apply (Hnn (N.pos p)).
  - change (- Z.of_N (digits_value 0 (zfill 2 (pretty (N.pos p)))) = Z.neg p).
    by rewrite digits_value_zfill, digits_value_pretty.
Qed.

Global Instance format_03d_inj : Inj (=) (=) format_03d.
Proof.
  intros i j H. by rewrite <-(int_of_string_format_03d i), H, int_of_string_format_03d.
Qed.

Lemma full_pool_NoDup start stop : NoDup (full_pool start stop).
Proof. unfold full_pool. apply (NoDup_fmap_2 _), NoDup_seqZ. Qed.



Lemma list_remove_perm (x : string) l : x ∈ l -> l ≡ₚ x :: list_remove x l.
Proof.
  induction l as [|y l IH]; intros Hin; [by apply elem_of_nil in Hin|].
  simpl. destruct (String.eqb y x) eqn:E.
  - apply String.eqb_eq in E. by subst.
  - apply elem_of_cons in Hin as [->|Hin]; [by rewrite String.eqb_refl in E|].
    rewrite (IH Hin) at 1. apply Permutation_swap.
Qed.

Lemma get_number_nonempty pool g :
  pool <> [] ->
  exists x g', x ∈ pool /\
    get_number (World (Some pool) g) = (Return x, World (Some (list_remove x pool)) g').
Proof.
  intros Hne. unfold get_number. simpl.
  destruct (choice_returns pool g Hne) as (x & g' & Hc & Hin).
  destruct pool as [|y l]; [done|]. rewrite Hc.
  by exists x, g'.
Qed.

Lemma get_number_empty g :
  get_number (World (Some []) g) = (Raise RuntimeError, World (Some []) g).
Proof. done. Qed.

Lemma issue_many_length start stop k w :
  length (fst (issue_many start stop k w)) = k.
Proof.
  revert w. induction k as [|k IH]; intros w; [done|].
  cbn [issue_many]. destruct (issue start stop w) as [r w1].
  specialize (IH w1). destruct (issue_many start stop k w1) as [rs w2].
  simpl in *. by rewrite IH.
Qed.

(** What [k] issues do to an existing pool. *)
Lemma issue_many_spec start stop k pool g :
  exists pool' g',
    snd (issue_many start stop k (World (Some pool) g)) = World (Some pool') g'
    /\ pool' ++ issued (fst (issue_many start stop k (World (Some pool) g))) ≡ₚ pool
    /\ ((k <= length pool)%nat ->
        fst (issue_many start stop k (World (Some pool) g))
        = Return <$> issued (fst (issue_many start stop k (World (Some pool) g)))
        /\ length (issued (fst (issue_many start stop k (World (Some pool) g)))) = k)
    /\ ((length pool < k)%nat ->
        last (fst (issue_many start stop k (World (Some pool) g)))
        = Some (Raise RuntimeError)).
Proof.
  revert pool g. induction k as [|k IH]; intros pool g.
  - exists pool, g. simpl. rewrite app_nil_r. repeat split; [done|lia].
  - cbn [issue_many]. unfold issue, __init__, _ensure_pool. cbn [pool_file].
    destruct (decide (pool = [])) as [->|Hne].
    + rewrite get_number_empty.
      destruct (IH [] g) as (pool' & g' & Hw & Hp & _ & Hl).
      pose proof (issue_many_length start stop k (World (Some []) g)) as Hlen.
      destruct (issue_many start stop k (World (Some []) g)) as [rs w].
      simpl in *. exists pool', g'. repeat split; [done|done|lia|lia|].
      intros _. destruct rs as [|r rs]; [done|].
      rewrite last_cons, Hl; [done|simpl in Hlen; lia].
    + destruct (get_number_nonempty pool g Hne) as (x & g1 & Hin & ->).
      pose proof (list_remove_perm x pool Hin) as Hperm.
      destruct (IH (list_remove x pool) g1) as (pool' & g' & Hw & Hp & Hle & Hl).
      destruct (issue_many start stop k (World (Some (list_remove x pool)) g1))
        as [rs w].
      simpl in *. exists pool', g'.
      assert (Hlen : length pool = S (length (list_remove x pool)))
        by (by rewrite Hperm at 1).
      split; [done|]. split.
      { rewrite Hperm. by rewrite <-Hp, Permutation_middle. }
      split.
      { intros Hk. destruct Hle as [Hrs Hn]; [lia|].
        split; [by f_equal|by rewrite Hn]. }
      intros Hk. rewrite last_cons, Hl; [done|lia].
Qed.


End CallNumberFacts.



(** ** Protocol serializer *)
Section SerializerFacts.
Context {lib : ACSFrameSerializer.PyLib}.
Import ACSFrameSerializer.
Implicit Types (self : t) (m a : list (string * json)).

Lemma or_else_return v w : or_else v (Return w) = Return (py_or v w).
Proof. unfold or_else, py_or. by destruct (truthy v). Qed.

Lemma deserialize_msg_obj self m :
  deserialize_msg self (JObj m)
  = if ne_str (kind_field m) "AudioData" then Return None
    else decode_audio self (audio_field m).
Proof.
  unfold deserialize_msg. cbn [py_get mbind result_bind].
  rewrite !or_else_return. cbn [mbind result_bind].
  fold (kind_field m). by destruct (ne_str (kind_field m) "AudioData").
Qed.

Lemma decode_audio_obj self a :
  decode_audio self (JObj a)
  = let b64 := py_or (dict_get a "data") (dict_get a "Data") in
    if negb (truthy b64) then Return None
    else
      pcm ← py_b64decode b64;
      let sr := py_or (py_or (dict_get a "sampleRate") (dict_get a "SampleRate"))
                  (JInt 16000) in
      pcm ← (if ne_int sr (_sample_rate self)
             then py_ratecv pcm 2 1 sr (_sample_rate self)
             else Return pcm);
      Return (Some (InputAudioRawFrame pcm 1 (_sample_rate self))).
Proof.
  unfold decode_audio. cbn [py_get mbind result_bind].
  rewrite !or_else_return. cbn [mbind result_bind].
  destruct (negb _); [done|].
  by destruct (py_b64decode _).
Qed.

Lemma ne_str_true v s : v <> JStr s -> ne_str v s = true.
Proof.
  intros Hv. destruct v as [| | | |s'| |]; try done. simpl.
  destruct (String.eqb_spec s' s); [by subst|done].
Qed.

Lemma deserialize_loaded self data msg :
  json_loads data = Return msg -> deserialize self data = deserialize_msg self msg.
Proof. intros H. unfold deserialize. by rewrite H. Qed.

(** Text that [json.loads] rejects gives no frame and no exception. *)
Lemma deserialize_malformed_json self data e :
  json_loads data = Raise e -> is_ValueError e = true ->
  deserialize self data = Return None.
Proof. intros H He. unfold deserialize. by rewrite H, He. Qed.

(** An exception of [base64.b64decode] leaves [deserialize]. *)
Lemma deserialize_b64decode_raises self data m a s e :
  json_loads data = Return (JObj m) ->
  kind_field m = JStr "AudioData" ->
  audio_field m = JObj a ->
  py_or (dict_get a "data") (dict_get a "Data") = JStr s -> s <> "" ->
  b64decode s = Raise e ->
  deserialize self data = Raise e.
Proof.
  intros Hl Hk Ha Hd Hs He.
  rewrite (deserialize_loaded _ _ _ Hl), deserialize_msg_obj, Hk, Ha. simpl.
  assert (Es : String.eqb s "" = false) by (by apply String.eqb_neq).
  rewrite decode_audio_obj, Hd. by repeat (simpl; rewrite ?Es, ?He).
Qed.

(** What [decode_audio] does with a non-empty decodable [data] string and
    an integer rate. *)
Lemma decode_audio_int self a s pcm n :
  data_field a = JStr s -> s <> "" ->
  b64decode s = Return pcm ->
  rate_field a = JInt n ->
  decode_audio self (JObj a)
  = pcm' ← (if Z.eqb n (_sample_rate self) then Return pcm
            else ratecv pcm 2 1 n (_sample_rate self));
    Return (Some (InputAudioRawFrame pcm' 1 (_sample_rate self))).
Proof.
  unfold data_field, rate_field. intros Hd Hs Hb Hr.
  assert (Es : String.eqb s "" = false) by (by apply String.eqb_neq).
  rewrite decode_audio_obj, Hd, Hr. cbn [truthy]. rewrite Es.
  cbn [negb py_b64decode mbind result_bind]. rewrite Hb.
  cbn [ne_int py_ratecv mbind result_bind].
  by destruct (Z.eqb n (_sample_rate self)).
Qed.

(** C2, as the code has it: a message object whose kind is the string
    [AudioData], with an audio object that carries a non-empty base64 [data]
    string and an integer sample rate [n] (each field under either spelling,
    16000 standing for a rate that is missing or 0), gives an inbound mono
    frame at the serializer's rate whose PCM is the decoded payload when [n]
    is the serializer's rate; otherwise [deserialize] is the call of
    [ratecv] from [n] to the serializer's rate, whose result becomes the PCM
    of such a frame and whose exception leaves [deserialize]; a message
    object with any other kind gives none. *)
Theorem deserialize_audio_data self data m a s pcm n data' m' :
  json_loads data = Return (JObj m) ->
  kind_field m = JStr "AudioData" ->
  audio_field m = JObj a ->
  data_field a = JStr s -> s <> "" ->
  b64decode s = Return pcm ->
  rate_field a = JInt n ->
  json_loads data' = Return (JObj m') ->
  kind_field m' <> JStr "AudioData" ->
  (n = _sample_rate self ->
   deserialize self data
   = Return (Some (AudioFrame InputAudioRaw (AudioData pcm (_sample_rate self) 1))))
  /\ (n <> _sample_rate self ->
      deserialize self data
      = pcm' ← ratecv pcm 2 1 n (_sample_rate self);
        Return (Some (AudioFrame InputAudioRaw (AudioData pcm' (_sample_rate self) 1))))
  /\ deserialize self data' = Return None.
Proof.
  intros Hl Hk Ha Hd Hs Hb Hr Hl' Hk'.
  assert (Hmsg : deserialize self data
    = pcm' ← (if Z.eqb n (_sample_rate self) then Return pcm
              else ratecv pcm 2 1 n (_sample_rate self));
      Return (Some (InputAudioRawFrame pcm' 1 (_sample_rate self)))).
  { rewrite (deserialize_loaded _ _ _ Hl), deserialize_msg_obj, Hk, Ha. simpl.
    by apply (decode_audio_int self a s pcm n). }
  split; [|split].
  - intros ->. rewrite Hmsg. by rewrite Z.eqb_refl.
  - intros Hne. rewrite Hmsg.
    by destruct (Z.eqb_spec n (_sample_rate self)).
  - rewrite (deserialize_loaded _ _ _ Hl'), deserialize_msg_obj.
    by rewrite (ne_str_true _ _ Hk').
Qed.

(** The two messages that [serialize] builds itself are always dumped. *)
Lemma json_dumps_stop_audio :
  exists text, json_dumps stop_audio_message = Return text.
Proof. apply json_dumps_shallow; [simpl; lia|reflexivity]. Qed.

Lemma json_dumps_envelope payload :
  exists text, json_dumps (audio_envelope payload 16000) = Return text.
Proof. apply json_dumps_shallow; [simpl; lia|vm_compute; reflexivity]. Qed.

(** The rate that [serialize] takes for an audio frame, and what it dumps. *)
Lemma serialize_audio self cls (ad : audio_data) :
  serialize self (AudioFrame cls ad)
  = let sr := if Z.eqb (sample_rate ad) 0 then _sample_rate self else sample_rate ad in
    pcm' ← (if Z.eqb sr 16000 then Return (audio ad)
            else ratecv (audio ad) 2 1 sr 16000);
    text ← json_dumps (audio_envelope (b64encode pcm') 16000);
    Return (Some text).
Proof.
  cbn [serialize]. cbv zeta.
  destruct (Z.eqb_spec (if Z.eqb (sample_rate ad) 0 then _sample_rate self
                        else sample_rate ad) 16000) as [->|Hne]; [done|].
  simpl. by destruct (ratecv _ _ _ _ _).
Qed.

(** C3, as the code has it: the case analysis of [serialize].  An end,
    cancel or interruption frame gives the stop-audio message when auto-stop is
    on and none otherwise.  An audio frame is taken at its own rate, or at the
    serializer's rate when it declares 0; at 16000 it gives the audioData
    envelope with sampleRate 16000 and silent false whose data is the base64
    of its PCM; at any other rate its PCM goes through [ratecv] to 16 kHz, the
    envelope carries the base64 of the result, and an exception of [ratecv]
    leaves [serialize].  A transport-message frame, urgent or not, gives what
    [json.dumps] gives for its message, text or exception.  Every other frame
    gives none. *)
Theorem serialize_cases self f :
  let envelope payload :=
    JObj [("kind", JStr "audioData");
          ("audioData",
           JObj [("timestamp", JNull); ("participantRawID", JStr "");
                 ("data", JStr payload); ("silent", JBool false);
                 ("sampleRate", JInt 16000)])] in
  match f with
  | EndFrame | CancelFrame | StartInterruptionFrame =>
      exists text,
        json_dumps (JObj [("kind", JStr "stopAudio"); ("stopAudio", JObj [])])
        = Return text
        /\ serialize self f
           = Return (if InputParams.auto_stop_audio (_params self)
                     then Some text else None)
  | AudioFrame _ a =>
      let sr := if decide (sample_rate a = 0) then _sample_rate self
                else sample_rate a in
      (sr = 16000 ->
       exists text,
         json_dumps (envelope (b64encode (audio a))) = Return text
         /\ serialize self f = Return (Some text))
      /\ (sr <> 16000 -> forall pcm',
          ratecv (audio a) 2 1 sr 16000 = Return pcm' ->
          exists text,
            json_dumps (envelope (b64encode pcm')) = Return text
            /\ serialize self f = Return (Some text))
      /\ (sr <> 16000 -> forall e,
          ratecv (audio a) 2 1 sr 16000 = Raise e ->
          serialize self f = Raise e)
  | TransportMessageFrame message | TransportMessageUrgentFrame message =>
      serialize self f = Some <$> json_dumps message
  | _ => serialize self f = Return None
  end.
Proof.
  intros envelope.
  assert (Hstop : forall g, In g [EndFrame; CancelFrame; StartInterruptionFrame] ->
    exists text, json_dumps stop_audio_message = Return text
      /\ serialize self g
         = Return (if InputParams.auto_stop_audio (_params self)
                   then Some text else None)).
  { intros g Hg. destruct json_dumps_stop_audio as [text Ht]. exists text.
    split; [done|].
    destruct Hg as [<-|[<-|[<-|[]]]]; simpl;
      destruct (InputParams.auto_stop_audio _); by rewrite ?Ht. }
  destruct f as [| | | |cls a| | | | | | | | | | |]; try done.
  - apply Hstop. simpl. tauto.
  - apply Hstop. simpl. tauto.
  - apply Hstop. simpl. tauto.
  - rewrite serialize_audio. cbv zeta.
    assert ((if Z.eqb (sample_rate a) 0 then _sample_rate self else sample_rate a)
            = (if decide (sample_rate a = 0) then _sample_rate self else sample_rate a))
      as -> by (case_decide; destruct (Z.eqb_spec (sample_rate a) 0); done).
    set (sr := if decide _ then _ else _).
    split; [|split].
    + intros ->. destruct (json_dumps_envelope (b64encode (audio a))) as [text Ht].
      exists text. split; [exact Ht|].
      change (Z.eqb 16000 16000) with true. cbn [mbind result_bind].
      by rewrite Ht.
    + intros Hne pcm' Hcv. destruct (Z.eqb_spec sr 16000); [done|].
      destruct (json_dumps_envelope (b64encode pcm')) as [text Ht].
      exists text. split; [exact Ht|]. rewrite Hcv.
      cbn [mbind result_bind]. by rewrite Ht.
    + intros Hne e Hcv. destruct (Z.eqb_spec sr 16000); [done|]. by rewrite Hcv.
Qed.












End SerializerFacts.

(** ** The serializer on concrete wire text *)
Section SerializerExamples.
Import ACSFrameSerializer Reference.

(** C1: [deserialize] is required to give none, and never to raise, on a
    malformed message.  The code does so for text that is not JSON, for an
    unsupported kind and for a missing or empty payload, but not for an
    undecodable payload: on a well-formed [AudioData] envelope whose [data]
    is not valid base64 the error of [b64decode] leaves [deserialize], and
    so does the error of [ratecv] on a payload of odd length. *)
Theorem deserialize_undecodable_payload_raises :
  deserialize (__init__ None) (wire "{'kind':'AudioData','audioData':{'data':'A'}}")
  = Raise BinasciiError
  /\ deserialize (__init__ None)
       (wire "{'kind':'AudioData','audioData':{'data':'AAEC','sampleRate':8000}}")
     = Raise AudioopError
  /\ deserialize (__init__ None) (wire "{'kind':'AudioData','audioData':") = Return None
  /\ deserialize (__init__ None) (wire "{'kind':'AudioMetadata','audioMetadata':{}}") = Return None
  /\ deserialize (__init__ None) (wire "{'kind':'AudioData','audioData':{'data':''}}") = Return None.
Proof. vm_compute. repeat split. Qed.

(** Against C2 as stated: the lower-camel-case kind, which the outbound
    envelope uses, is not accepted on the way in, so a well-formed message
    with that kind and a decodable payload gives none; and not every message
    of the accepted kind with a non-empty base64 payload gives a frame: with
    three bytes of payload at 8000 Hz the error of the resampler leaves
    [deserialize]. *)
Lemma deserialize_audio_data_claim_fails :
  deserialize (__init__ None)
    (wire "{'kind':'audioData','audioData':{'data':'AAECAw==','sampleRate':8000}}")
  = Return None
  /\ json_loads
       (wire "{'kind':'audioData','audioData':{'data':'AAECAw==','sampleRate':8000}}")
     = Return (JObj [("kind", JStr "audioData");
                     ("audioData", JObj [("data", JStr "AAECAw==");
                                         ("sampleRate", JInt 8000)])])
  /\ b64decode "AAECAw==" = Return [x00; x01; x02; x03]
  /\ deserialize (__init__ None)
       (wire "{'kind':'AudioData','audioData':{'data':'AAEC','sampleRate':8000}}")
     = Raise AudioopError
  /\ b64decode "AAEC" = Return [x00; x01; x02].
Proof. vm_compute. repeat split. Qed.

Lemma deserialize_audio_data_witness :
  deserialize (__init__ None)
    (wire "{'kind':'AudioData','audioData':{'data':'AAECAw==','sampleRate':8000}}")
  = Return (Some (AudioFrame InputAudioRaw
                    (AudioData [x00; x01; x01; x02; x02; x03] 16000 1))).
Proof.
  pose (a := [("data", JStr "AAECAw=="); ("sampleRate", JInt 8000)]).
  pose (m := [("kind", JStr "AudioData"); ("audioData", JObj a)]).
  pose (m' := [("kind", JStr "AudioMetadata"); ("audioMetadata", JObj [])]).
  refine (eq_trans (proj1 (proj2 (deserialize_audio_data (__init__ None)
    (wire "{'kind':'AudioData','audioData':{'data':'AAECAw==','sampleRate':8000}}")
    m a "AAECAw==" [x00; x01; x02; x03] 8000
    (wire "{'kind':'AudioMetadata','audioMetadata':{}}") m'
    _ _ _ _ _ _ _ _ _)) _) _).
  - vm_compute. reflexivity.
  - reflexivity.
  - reflexivity.
  - reflexivity.
  - discriminate.
  - vm_compute. reflexivity.
  - reflexivity.
  - vm_compute. reflexivity.
  - vm_compute. discriminate.
  - vm_compute. discriminate.
  - vm_compute. reflexivity.
Defined.

(** Against C3 as stated: a transport-message frame is neither a stop
    signal nor audio, and it is serialized, not dropped; an audio frame whose
    PCM is not whole 16-bit samples gives no envelope at 8000 Hz, the error of
    the resampler leaving [serialize]; and a frame that declares the rate 0,
    which differs from 16000, is not resampled by a serializer whose own rate
    is 16000: the envelope carries its PCM as it is, where resampling from
    the declared rate would fail. *)
Lemma serialize_cases_claim_fails :
  serialize (__init__ None) (TransportMessageFrame (JObj [("type", JStr "ping")]))
  = Return (Some (wire "{'type': 'ping'}"))
  /\ serialize (__init__ None)
       (AudioFrame OutputAudioRaw (AudioData [x00; x01; x02] 8000 1))
     = Raise AudioopError
  /\ serialize (__init__ None)
       (AudioFrame OutputAudioRaw (AudioData [x00; x01; x02; x03] 0 1))
     = Return (Some (wire
         "{'kind': 'audioData', 'audioData': {'timestamp': null, 'participantRawID': '', 'data': 'AAECAw==', 'silent': false, 'sampleRate': 16000}}"))
  /\ b64encode [x00; x01; x02; x03] = "AAECAw=="
  /\ ratecv [x00; x01; x02; x03] 2 1 0 16000 = Raise AudioopError.
Proof. vm_compute. repeat split. Qed.


End SerializerExamples.

(** * Further properties of the code *)

(** ** Turn gate: order, invariants, muting *)
Section TurnGateMore.
Import TurnGateProcessor.

Local Instance not_raw_audio_dec p : Decision (not_raw_audio p).
Proof. unfold not_raw_audio. apply _. Defined.

(** One frame either comes out as it went in, or it is raw caller audio and
    nothing comes out. *)
Lemma process_frame_out g f d :
  (snd (process_frame g f d) = [(f, d)])
  \/ (snd (process_frame g f d) = [] /\ is_raw_input_audio f = true).
Proof.
  unfold process_frame. destruct (_enabled g); simpl; [|by left].
  destruct (_mute (transition g f)); simpl; [|by left].
  destruct (is_raw_input_audio f); simpl; auto.
Qed.

(** X1: the gate never reorders, repeats, changes or invents a frame: what
    comes out of a run is a subsequence of what went in, and it contains every
    frame that is not raw caller audio. *)
Theorem turn_gate_output_subsequence g (fs : list pushed) :
  snd (run g fs) `sublist_of` fs
  /\ filter not_raw_audio (snd (run g fs)) = filter not_raw_audio fs.
Proof.
  revert g. induction fs as [|[f d] fs IH]; intros g; [done|].
  cbn [run]. destruct (process_frame g f d) as [g1 out1] eqn:Hp.
  destruct (IH g1) as [Hs Hf]. destruct (run g1 fs) as [g2 out2].
  pose proof (process_frame_out g f d) as Ho. rewrite Hp in Ho.
  simpl in *. destruct Ho as [->|[-> Hraw]]; simpl.
  - split; [by apply sublist_skip|].
    rewrite !filter_cons. by rewrite Hf.
  - split; [by apply sublist_cons|].
    rewrite filter_cons_False by (unfold not_raw_audio; simpl; by rewrite Hraw).
    done.
Qed.

(** While enabled and muted, only [BotStoppedSpeakingFrame] unmutes. *)
Lemma process_frame_stays_muted n s f d :
  f <> BotStoppedSpeakingFrame ->
  exists n' s',
    process_frame (Gate true true n s) f d
    = (Gate true true n' s', if is_raw_input_audio f then [] else [(f, d)])
    /\ (f <> UserStoppedSpeakingFrame ->
        n' = if is_raw_input_audio f then n + 1 else n).
Proof.
  intros Hf. unfold process_frame.
  destruct f as [| | | |[] ?| | | | | | | | | | |]; simpl; try done;
    try (by eexists _, _); by destruct s; eexists _, _.
Qed.

(** X2: an enabled, muted gate stays muted through every frame other than
    [BotStoppedSpeakingFrame] (the start of assistant speech and new caller
    speech included): of such a sequence exactly the frames that are not raw
    caller audio come out, and when the sequence holds no
    [UserStoppedSpeakingFrame] either, the counter grows by the number of
    raw audio frames in it. *)
Theorem turn_gate_muted_until_bot_stopped n s (fs : list pushed) :
  Forall (fun p => fst p <> BotStoppedSpeakingFrame) fs ->
  snd (run (Gate true true n s) fs) = filter not_raw_audio fs
  /\ _mute (fst (run (Gate true true n s) fs)) = true
  /\ _enabled (fst (run (Gate true true n s) fs)) = true
  /\ (Forall (fun p => fst p <> UserStoppedSpeakingFrame) fs ->
      _dropped (fst (run (Gate true true n s) fs))
      = n + Z.of_nat (length fs) - Z.of_nat (length (filter not_raw_audio fs))).
Proof.
  intros H. revert n s. induction H as [|[f d] fs Hf _ IH]; intros n s.
  - simpl. repeat split. intros _. lia.
  - simpl in Hf. cbn [run].
    destruct (process_frame_stays_muted n s f d Hf) as (n' & s' & -> & Hn).
    destruct (IH n' s') as (Ho & Hm & He & Hd).
    destruct (run (Gate true true n' s') fs) as [g2 out2]. simpl in *.
    split; [|split; [done|split; [done|]]].
    + rewrite Ho. destruct (is_raw_input_audio f) eqn:Hraw.
      * by rewrite filter_cons_False by (unfold not_raw_audio; simpl; by rewrite Hraw).
      * by rewrite filter_cons_True by done.
    + intros [Hu Hus]%Forall_cons. simpl in Hu.
      rewrite (Hd Hus), (Hn Hu).
      destruct (is_raw_input_audio f) eqn:Hraw.
      * rewrite filter_cons_False by (unfold not_raw_audio; simpl; by rewrite Hraw).
        lia.
      * rewrite filter_cons_True by done. simpl. lia.
Qed.

Lemma turn_gate_muted_until_bot_stopped_witness :
  let a := (AudioFrame InputAudioRaw (AudioData [x01; x02] 16000 1), DOWNSTREAM) in
  let fs := [a; (BotStartedSpeakingFrame, DOWNSTREAM); a;
             (UserStartedSpeakingFrame, DOWNSTREAM); a] in
  snd (run (Gate true true 0 true) fs)
  = [(BotStartedSpeakingFrame, DOWNSTREAM); (UserStartedSpeakingFrame, DOWNSTREAM)]
  /\ _dropped (fst (run (Gate true true 0 true) fs)) = 3.
Proof.
  intros a fs.
  assert (H : Forall (fun p : pushed => fst p <> BotStoppedSpeakingFrame) fs)
    by (repeat constructor; discriminate).
  destruct (turn_gate_muted_until_bot_stopped 0 true fs H) as (Ho & _ & _ & Hd).
  split; [exact Ho|]. apply Hd. repeat constructor; discriminate.
Defined.

(** X3: in every state the gate can reach, it is muted only while enabled
    and armed, the counter is never negative, and a disabled gate is in the
    reset state. *)
Theorem turn_gate_invariant g :
  reachable g ->
  (_mute g = true -> _enabled g = true /\ _saw_user_since_enable g = true)
  /\ 0 <= _dropped g
  /\ (_enabled g = false -> g = Gate false false 0 false).
Proof.
  induction 1 as [| | |g f d _ IH]; try (by repeat split).
  destruct IH as (Hm & Hd & He).
  unfold process_frame. destruct g as [e m n s]. simpl in *.
  destruct e; simpl.
  - destruct f as [| | | |[] ?| | | | | | | | | | |]; simpl;
      destruct m, s; simpl; repeat split; intros; try done; try lia;
      by destruct (Hm eq_refl).
  - specialize (He eq_refl). injection He as -> -> ->. by repeat split.
Qed.

Lemma turn_gate_invariant_witness :
  let a := (AudioFrame InputAudioRaw (AudioData [x01; x02] 16000 1)) in
  let g := fst (process_frame
                  (fst (process_frame
                          (fst (process_frame __init__ UserStartedSpeakingFrame DOWNSTREAM))
                          UserStoppedSpeakingFrame DOWNSTREAM))
                  a DOWNSTREAM) in
  _mute g = true /\ 0 <= _dropped g.
Proof.
  intros a g.
  assert (Hr : reachable g) by (do 3 apply reachable_frame; apply reachable_init).
  destruct (turn_gate_invariant g Hr) as (_ & Hd & _).
  split; [reflexivity|exact Hd].
Defined.

End TurnGateMore.

(** ** Latency injector: a session's frames *)
Section InjectorMore.
Context {seconds : Type}.
Import LatencyInjector.
Implicit Types (p : process seconds) (self : t seconds) (d : seconds).

Ltac proc_steps :=
  unfold process_frame, mbind, mret, proc_bind, proc_ret, push_frame,
    asyncio_sleep, await, set_busy, get_state.

Lemma run_cons f dir (fs : list pushed) (st : state seconds) :
  run ((f, dir) :: fs) st
  = match process_frame f dir st with
    | (Return _, st1, tr1) =>
        match run fs st1 with (r, st2, tr2) => (r, st2, tr1 ++ tr2) end
    | (Raise e, st1, tr1) => (Raise e, st1, tr1)
    end.
Proof.
  cbn [run]. unfold mbind at 1. unfold proc_bind.
  by destruct (process_frame f dir st) as [[[[]|e] st1] tr1].
Qed.

(** One frame, for an instance that has its delay. *)
Lemma process_frame_cached p self d f dir :
  _latency_seconds self = Some d ->
  process_frame f dir (p, self)
  = if holding (f, dir)
    then (Return tt, (p, with_busy self true),
          [(Push (STTMuteFrame true) UPSTREAM, _busy self);
           (Sleep d, true); (Push f dir, true)])
    else if _busy self && unmuting (f, dir)
    then (Return tt, (p, with_busy self false),
          [(Push (STTMuteFrame false) UPSTREAM, true); (Push f dir, false)])
    else (Return tt, (p, self), [(Push f dir, _busy self)]).
Proof.
  intros Hl. unfold holding, unmuting. cbn [fst snd].
  destruct (is_downstream dir && is_context_frame f) eqn:Hh.
  - apply andb_true_iff in Hh as [Hd Hc]. destruct dir; [|done].
    rewrite (process_context_frame _ _ _ Hc).
    by rewrite (pick_cached p (with_busy self true) d Hl).
  - destruct (_busy self && (is_downstream dir && is_TTSSpeakFrame f)) eqn:Hu.
    + apply andb_true_iff in Hu as [Hb [Hd Ht]%andb_true_iff].
      destruct dir; [|done].
      assert (is_context_frame f = false) as Hc by (by destruct f).
      proc_steps. simpl. rewrite Hc. simpl. cbn [fst snd].
      rewrite Hb, Ht. simpl. by rewrite Hb.
    + apply process_other_frame.
      destruct (is_downstream dir); [|done]. simpl in *.
      rewrite Hh. simpl. by destruct (_busy self).
Qed.

(** X4: once an instance has its delay, a session never fails in the
    injector, never touches the process-wide cursor or generator again, keeps
    the delay, and sleeps for that same delay once per downstream context
    frame. *)
Theorem injector_one_delay_per_session p self d (fs : list pushed) :
  _latency_seconds self = Some d ->
  fst (fst (run fs (p, self))) = Return tt
  /\ fst (snd (fst (run fs (p, self)))) = p
  /\ _latency_seconds (snd (snd (fst (run fs (p, self))))) = Some d
  /\ sleeps (snd (run fs (p, self))) = (fun _ => d) <$> filter holding fs.
Proof.
  revert self. induction fs as [|[f dir] fs IH]; intros self Hl; [done|].
  rewrite run_cons, (process_frame_cached _ _ _ _ _ Hl), filter_cons.
  destruct (decide (holding (f, dir))) as [Hh|Hh].
  - apply Is_true_true in Hh. rewrite Hh.
    destruct (IH (with_busy self true) Hl) as (Hr & Hp & Hd & Hs).
    destruct (run fs (p, with_busy self true)) as [[r st2] tr2].
    simpl in *. by rewrite Hs.
  - apply Is_true_false in Hh. rewrite Hh.
    destruct (_busy self && unmuting (f, dir)).
    + destruct (IH (with_busy self false) Hl) as (Hr & Hp & Hd & Hs).
      by destruct (run fs (p, with_busy self false)) as [[r st2] tr2].
    + destruct (IH self Hl) as (Hr & Hp & Hd & Hs).
      by destruct (run fs (p, self)) as [[r st2] tr2].
Qed.

(** X5: the injector never drops, reorders or changes a frame: with the
    sleeps and the upstream mute signals taken out, the pushes of a session are
    the frames that came in, in their order and direction (for input that
    holds no upstream [STTMuteFrame] of its own). *)
Theorem injector_forwards_every_frame p self d (fs : list pushed) :
  _latency_seconds self = Some d ->
  Forall (fun x => is_upstream_mute x = false) fs ->
  pushes (filter (fun e => is_own_event e = false) (snd (run fs (p, self)))) = fs.
Proof.
  intros Hl Hfs. revert self Hl.
  induction Hfs as [|[f dir] fs Hx _ IH]; intros self Hl; [done|].
  assert (Hown : forall b, is_own_event ((Push f dir, b) : event seconds) = false)
    by (intros b; exact Hx).
  rewrite run_cons, (process_frame_cached _ _ _ _ _ Hl).
  destruct (holding (f, dir)); [|destruct (_busy self && unmuting (f, dir))].
  - specialize (IH (with_busy self true) Hl).
    destruct (run fs (p, with_busy self true)) as [[r st2] tr2].
    simpl in *. rewrite !filter_cons. simpl.
    rewrite decide_True by apply Hown. simpl. by rewrite IH.
  - specialize (IH (with_busy self false) Hl).
    destruct (run fs (p, with_busy self false)) as [[r st2] tr2].
    simpl in *. rewrite !filter_cons. simpl.
    rewrite decide_True by apply Hown. simpl. by rewrite IH.
  - specialize (IH self Hl).
    destruct (run fs (p, self)) as [[r st2] tr2].
    simpl in *. rewrite !filter_cons.
    rewrite decide_True by apply Hown. simpl. by rewrite IH.
Qed.



(** A new instance with its pick, under either strategy. *)
Lemma init_returns p cs strategy self :
  __init__ p cs strategy = Return self ->
  _latency_seconds self = None /\ _busy self = false /\ _strategy self = strategy
  /\ _choices self = match cs with Some (x :: xs) => x :: xs | _ => LATENCY_CHOICES p end.
Proof.
  unfold __init__. destruct (negb _); [done|]. by intros [= <-].
Qed.

(** X7: under round robin the candidates given to an instance play no
    part: its pick is the next element of the process-wide cursor (a
    [StopIteration] of an empty cursor surfacing as [RuntimeError]) and it
    leaves the random generator alone; under the random strategy the pick is
    a member of the instance's candidates, or of the configured ones when none
    or an empty list was given, and it leaves the cursor alone. *)
Theorem pick_latency_by_strategy p cs strategy self :
  __init__ p cs strategy = Return self ->
  (strategy = "round_robin" ->
   fst (fst (_pick_latency (p, self)))
   = match fst (_next_latency_round_robin p) with
     | Raise StopIteration => Raise RuntimeError
     | r => r
     end
   /\ fst (snd (fst (_pick_latency (p, self)))) = snd (_next_latency_round_robin p)
   /\ gen (fst (snd (fst (_pick_latency (p, self))))) = gen p)
  /\ (strategy = "random" ->
      _latency_cycle (fst (snd (fst (_pick_latency (p, self))))) = _latency_cycle p
      /\ forall d, fst (fst (_pick_latency (p, self))) = Return d ->
           d ∈ match cs with Some (x :: xs) => x :: xs | _ => LATENCY_CHOICES p end).
Proof.
  intros Hi. destruct (init_returns _ _ _ _ Hi) as (Hl & _ & Hs & Hc).
  rewrite (pick_fresh _ _ Hl), Hs. split; intros ->; simpl.
  - unfold _next_latency_round_robin.
    destruct (itertools.next (_latency_cycle p)) as [[d|e] c]; [done|].
    by destruct e.
  - rewrite Hc. set (l := match cs with Some (x :: xs) => x :: xs | _ => _ end).
    unfold random_choice.
    destruct (random.choice l (gen p)) as [[d|e] g] eqn:Hch.
    + split; [done|]. intros d' [= <-].
      unfold random.choice in Hch. destruct l as [|y l']; [done|].
      destruct (random.randbelow _ _) as [i g'].
      destruct ((y :: l') !! i) eqn:Hy; [|done].
      injection Hch as <- _. by eapply list_elem_of_lookup_2.
    + split; [by destruct e|]. by destruct e.
Qed.

Lemma rotation_block (choices : list seconds) k :
  rotation choices <$> seq (k * length choices) (length choices) = Return <$> choices.
Proof.
  apply list_eq. intros i. rewrite !list_lookup_fmap.
  destruct (decide (i < length choices)%nat) as [Hi|Hi].
  - rewrite lookup_seq_lt by done. simpl. unfold rotation.
    replace (Nat.modulo (k * length choices + i) (length choices)) with i.
    { destruct (choices !! i) eqn:Hc; [done|].
      apply lookup_ge_None in Hc. lia. }
    rewrite Nat.add_comm, Nat.Div0.mod_add. by rewrite Nat.mod_small.
  - rewrite lookup_seq_ge by lia. by rewrite lookup_ge_None_2 by lia.
Qed.

(** X8: round robin is balanced: from the start of a process, the first
    [len] sessions get the configured candidates once each, in their order,
    and so does every later block of [len] sessions. *)
Theorem round_robin_balanced (choices : list seconds) g k :
  fst (sessions "round_robin" (length choices) (import_module choices g))
  = Return <$> choices
  /\ drop (k * length choices)
       (fst (sessions "round_robin" (k * length choices + length choices)
               (import_module choices g)))
     = Return <$> choices.
Proof.
  destruct choices as [|x xs]; [split; [done|]|].
  { simpl. rewrite Nat.mul_0_r. done. }
  set (choices := x :: xs).
  assert (Hs : forall n, fst (sessions "round_robin" n (import_module choices g))
                         = rotation choices <$> seq 0 n).
  { intros n. unfold import_module. rewrite cycle_new_at.
    by apply sessions_round_robin. }
  split.
  - rewrite Hs. apply (rotation_block choices 0).
  - rewrite Hs, seq_app, fmap_app, drop_app_length'
      by (by rewrite length_fmap, length_seq).
    apply rotation_block.
Qed.

End InjectorMore.

Lemma injector_one_delay_per_session_witness :
  let choices := ["3.0"; "7.0"; "0.1"] in
  let p := LatencyInjector.import_module choices (random.Rng (fun k => k) 0) in
  let self := LatencyInjector.Injector choices "round_robin" (Some "7.0") false in
  let fs := [(OpenAILLMContextFrame (JArr []), DOWNSTREAM);
             (TTSSpeakFrame "Guten Tag.", DOWNSTREAM);
             (LLMMessagesFrame (JArr []), DOWNSTREAM)] in
  LatencyInjector.sleeps (snd (LatencyInjector.run fs (p, self))) = ["7.0"; "7.0"].
Proof.
  intros choices p self fs.
  exact (proj2 (proj2 (proj2
    (injector_one_delay_per_session p self "7.0" fs eq_refl)))).
Defined.

Lemma injector_forwards_every_frame_witness :
  let choices := ["3.0"; "7.0"; "0.1"] in
  let p := LatencyInjector.import_module choices (random.Rng (fun k => k) 0) in
  let self := LatencyInjector.Injector choices "round_robin" (Some "7.0") false in
  let fs := [(OpenAILLMContextFrame (JArr []), DOWNSTREAM);
             (STTMuteFrame true, DOWNSTREAM);
             (TTSSpeakFrame "Guten Tag.", DOWNSTREAM);
             (UserStartedSpeakingFrame, UPSTREAM)] in
  LatencyInjector.pushes
    (filter (fun e => LatencyInjector.is_own_event e = false)
       (snd (LatencyInjector.run fs (p, self)))) = fs.
Proof.
  intros choices p self fs.
  refine (injector_forwards_every_frame p self "7.0" fs eq_refl _).
  repeat constructor.
Defined.


Lemma pick_latency_by_strategy_witness :
  let choices := ["3.0"; "7.0"; "0.1"] in
  let p := LatencyInjector.import_module choices (random.Rng (fun k => k) 0) in
  let self := LatencyInjector.Injector ["9.9"] "round_robin" None false in
  fst (fst (LatencyInjector._pick_latency (p, self))) = Return "3.0".
Proof.
  intros choices p self.
  exact (proj1 (proj1 (pick_latency_by_strategy p (Some ["9.9"]) "round_robin" self
                         eq_refl) eq_refl)).
Defined.

(** ** Call-number allocator: format, exhaustion, existing pool files *)
Section CallNumberMore.
Import CallNumberProvider.

Lemma length_zfill w (s : string) : (w <= String.length (zfill w s))%nat.
Proof.
  unfold zfill.
  assert (H : forall k, String.length (zeros k +:+ s) = (k + String.length s)%nat).
  { induction k as [|k IH]; [done|]. simpl. by rewrite IH. }
  rewrite H. lia.
Qed.

(** X9: the [03d] form can be read back, so different numbers never share
    an id, and it is never shorter than three characters (negative numbers
    and numbers above 999 included). *)
Theorem format_03d_round_trip (i j : Z) :
  int_of_string (format_03d i) = i
  /\ (format_03d i = format_03d j -> i = j)
  /\ (3 <= String.length (format_03d i))%nat.
Proof.
  split; [apply int_of_string_format_03d|]. split; [apply format_03d_inj|].
  destruct i as [|p|p]; try apply length_zfill.
  change (3 <= S (String.length (zfill 2 (pretty (N.pos p)))))%nat.
  pose proof (length_zfill 2 (pretty (N.pos p))). lia.
Qed.

Lemma issue_existing start stop pool g :
  issue start stop (World (Some pool) g) = get_number (World (Some pool) g).
Proof. done. Qed.

(** X10: exhaustion is permanent: on an empty pool file every issue raises
    [RuntimeError] and leaves the file empty and the generator untouched; the
    pool is not made again from the configured range. *)
Theorem exhausted_pool_stays_exhausted start stop g (k : nat) :
  issue_many start stop k (World (Some []) g)
  = (replicate k (Raise RuntimeError), World (Some []) g).
Proof.
  induction k as [|k IH]; [done|].
  cbn [issue_many]. rewrite issue_existing, get_number_empty. by rewrite IH.
Qed.

(** X11: once the pool file exists, the configured range plays no part:
    the same issues come out under any other range, every issued id is taken
    from the file, and the file together with the issued ids stays a
    rearrangement of the file's first content, duplicates included. *)
Theorem existing_pool_ignores_range start stop start' stop' pool g (k : nat) :
  issue_many start stop k (World (Some pool) g)
  = issue_many start' stop' k (World (Some pool) g)
  /\ Forall (fun id => id ∈ pool)
       (issued (fst (issue_many start stop k (World (Some pool) g))))
  /\ exists pool' g',
       snd (issue_many start stop k (World (Some pool) g)) = World (Some pool') g'
       /\ pool' ++ issued (fst (issue_many start stop k (World (Some pool) g))) ≡ₚ pool.
Proof.
  destruct (issue_many_spec start stop k pool g) as (pool' & g' & Hw & Hp & _).
  split; [|split; [|by exists pool', g']].
  - clear. revert pool g. induction k as [|k IH]; intros pool g; [done|].
    cbn [issue_many]. rewrite !issue_existing.
    destruct (decide (pool = [])) as [->|Hne].
    + rewrite get_number_empty. by rewrite IH.
    + destruct (get_number_nonempty pool g Hne) as (x & g1 & _ & ->).
      by rewrite IH.
  - apply Forall_forall. intros id Hid. rewrite <-Hp. set_solver.
Qed.

(** X12: the new pool holds [stop + 1 - start] ids, none when the range is
    inverted; in that case the first issue makes an empty pool file and
    raises [RuntimeError]. *)
Theorem full_pool_size start stop g :
  length (full_pool start stop) = Z.to_nat (stop + 1 - start)
  /\ (stop < start ->
      issue start stop (World None g) = (Raise RuntimeError, World (Some []) g)).
Proof.
  split.
  - unfold full_pool. by rewrite length_fmap, length_seqZ.
  - intros H. unfold issue, __init__, _ensure_pool, full_pool. simpl.
    replace (stop + 1 - start) with (- (start - stop - 1)) by lia.
    destruct (start - stop - 1) eqn:E; try lia; done.
Qed.

End CallNumberMore.

(** ** Session setup: call number and delay together *)
Section PipelineFacts.
Context {seconds : Type}.
Import LatencyInjector call_pipeline.
Implicit Types (choices : list seconds) (pool : list string)
  (p : process seconds).

Lemma build_pipeline_empty_pool strategy start stop p :
  strategy = "random" \/ strategy = "round_robin" ->
  build_pipeline strategy start stop (World p (Some []))
  = (Raise RuntimeError, World p (Some [])).
Proof.
  intros Hs. unfold build_pipeline, LatencyInjector.__init__. cbn [proc pool_file].
  assert (negb (String.eqb strategy "random" || String.eqb strategy "round_robin")
          = false) as -> by (by destruct Hs as [-> | ->]).
  rewrite issue_existing, get_number_empty. simpl. by destruct p.
Qed.

Lemma build_pipeline_round_robin start stop choices k g pool :
  choices <> [] -> pool <> [] ->
  exists x g' d,
    x ∈ pool /\ rotation choices k = Return d
    /\ build_pipeline "round_robin" start stop
         (World (Process choices (itertools.cycle_at choices k) g) (Some pool))
       = (Return (x, d, Injector choices "round_robin" (Some d) false),
          World (Process choices (itertools.cycle_at choices (S k)) g')
            (Some (CallNumberProvider.list_remove x pool))).
Proof.
  intros Hc Hp.
  destruct (get_number_nonempty pool g Hp) as (x & g' & Hin & Hg).
  unfold build_pipeline. cbn [proc pool_file].
  change (LatencyInjector.__init__ _ None "round_robin")
    with (Return (Injector choices "round_robin" None false)).
  cbn [LATENCY_CHOICES gen].
  rewrite issue_existing, Hg. unfold with_gen.
  cbn [LATENCY_CHOICES _latency_cycle
    CallNumberProvider.gen CallNumberProvider.pool_file].
  rewrite pick_fresh by done. simpl String.eqb. cbv iota.
  unfold _next_latency_round_robin. cbn [_latency_cycle LATENCY_CHOICES gen].
  unfold rotation.
  destruct (choices !! _) as [d|] eqn:Hd.
  - rewrite (next_cycle_at _ _ _ Hd). by exists x, g', d.
  - apply lookup_ge_None in Hd.
    pose proof (Nat.mod_upper_bound k (length choices)).
    destruct choices; [done|simpl in *; lia].
Qed.

(** Connections on an existing pool, with the cursor at position [k]. *)
Lemma connections_spec start stop choices (n k : nat) g pool :
  choices <> [] ->
  let w := World (Process choices (itertools.cycle_at choices k) g) (Some pool) in
  let rs := fst (connections "round_robin" start stop n w) in
  let m := Nat.min n (length pool) in
  Return <$> chosen_latencies rs = rotation choices <$> seq k m
  /\ length (call_ids rs) = m
  /\ drop m rs = replicate (n - m) (Raise RuntimeError)
  /\ (exists pool', pool' ++ call_ids rs ≡ₚ pool)
  /\ _latency_cycle (proc (snd (connections "round_robin" start stop n w)))
     = itertools.cycle_at choices (k + m).
Proof.
  intros Hc. revert k g pool. induction n as [|n IH]; intros k g pool w rs m.
  - subst w rs m. simpl. rewrite Nat.add_0_r. repeat split.
    exists pool. by rewrite app_nil_r.
  - subst w rs m. cbn [connections].
    destruct (decide (pool = [])) as [->|Hp].
    + rewrite build_pipeline_empty_pool by auto.
      destruct (IH k g []) as (Hl & Hn & Hd & Hperm & Hcy).
      destruct (connections "round_robin" start stop n _) as [rs w2].
      cbn [fst snd length] in *.
      rewrite Nat.min_0_r in Hl, Hn, Hd, Hcy. rewrite Nat.min_0_r.
      rewrite Nat.sub_0_r, drop_0 in Hd.
      split; [exact Hl|]. split; [exact Hn|].
      split; [by rewrite drop_0, Nat.sub_0_r, Hd|]. by split.
    + destruct (build_pipeline_round_robin start stop choices k g pool Hc Hp)
        as (x & g' & d & Hin & Hrot & ->).
      pose proof (list_remove_perm x pool Hin) as Hx.
      assert (Hlen : length pool = S (length (CallNumberProvider.list_remove x pool)))
        by (by rewrite Hx at 1).
      destruct (IH (S k) g' (CallNumberProvider.list_remove x pool))
        as (Hl & Hn & Hd & (pool' & Hperm) & Hcy).
      destruct (connections "round_robin" start stop n _) as [rs w2].
      cbn [fst snd] in *. rewrite Hlen, <-Nat.succ_min_distr.
      set (m := Nat.min n (length (CallNumberProvider.list_remove x pool))) in *.
      repeat split.
      * cbn [chosen_latencies omap list_omap fmap list_fmap seq].
        fold (chosen_latencies rs). by rewrite Hrot, <-Hl.
      * cbn [call_ids omap list_omap length]. fold (call_ids rs). by rewrite Hn.
      * done.
      * exists pool'. cbn [call_ids omap list_omap]. fold (call_ids rs).
        by rewrite Hx, <-Hperm, Permutation_middle.
      * by rewrite Hcy, Nat.add_succ_r.
Qed.

Lemma connections_create_pool start stop p (n : nat) :
  fst (connections "round_robin" start stop (S n) (World p None))
  = fst (connections "round_robin" start stop (S n)
           (World p (Some (CallNumberProvider.full_pool start stop))))
  /\ proc (snd (connections "round_robin" start stop (S n) (World p None)))
     = proc (snd (connections "round_robin" start stop (S n)
                    (World p (Some (CallNumberProvider.full_pool start stop))))).
Proof.
  assert (H : build_pipeline "round_robin" start stop (World p None)
              = build_pipeline "round_robin" start stop
                  (World p (Some (CallNumberProvider.full_pool start stop))))
    by reflexivity.
  cbn [connections]. by rewrite H.
Qed.

(** X13: call setup draws the call number before the delay.  With the
    round-robin strategy and some candidates configured, of [n] connections
    on a new pool the first [min n size] are set up, with pairwise distinct
    call numbers of the configured range and with the delays in rotation
    order, and every later one fails with [RuntimeError] for want of a call
    number; a connection that fails this way does not use up a turn of the
    rotation. *)
Theorem connections_allocate start stop choices g (n : nat) :
  choices <> [] ->
  let w0 := World (import_module choices g) None in
  let rs := fst (connections "round_robin" start stop n w0) in
  let m := Nat.min n (length (CallNumberProvider.full_pool start stop)) in
  Return <$> chosen_latencies rs = rotation choices <$> seq 0 m
  /\ length (call_ids rs) = m
  /\ NoDup (call_ids rs)
  /\ Forall (fun id => id ∈ CallNumberProvider.full_pool start stop) (call_ids rs)
  /\ drop m rs = replicate (n - m) (Raise RuntimeError)
  /\ _latency_cycle (proc (snd (connections "round_robin" start stop n w0)))
     = itertools.cycle_at choices m.
Proof.
  intros Hc w0 rs m. subst w0 rs m. unfold import_module. rewrite cycle_new_at.
  destruct n as [|n].
  { simpl. repeat split; constructor. }
  destruct (connections_create_pool start stop
              (Process choices (itertools.cycle_at choices 0) g) n) as [-> ->].
  destruct (connections_spec start stop choices (S n) 0 g
              (CallNumberProvider.full_pool start stop) Hc)
    as (Hl & Hn & Hd & (pool' & Hperm) & Hcy).
  split; [exact Hl|]. split; [exact Hn|].
  split; [|split; [|split; [exact Hd|exact Hcy]]].
  - pose proof (full_pool_NoDup start stop) as Hnd.
    rewrite <-Hperm in Hnd. by apply NoDup_app in Hnd as (_ & _ & ?).
  - apply Forall_forall. intros id Hid. rewrite <-Hperm. set_solver.
Qed.

End PipelineFacts.

Lemma connections_allocate_witness :
  let choices := ["3.0"; "7.0"; "0.1"] in
  let w0 := call_pipeline.World
              (LatencyInjector.import_module choices (random.Rng (fun k => (3 * k)%nat) 0))
              None in
  let rs := fst (call_pipeline.connections "round_robin" 501 502 4 w0) in
  Return <$> call_pipeline.chosen_latencies rs = [Return "3.0"; Return "7.0"]
  /\ drop 2 rs = [Raise RuntimeError; Raise RuntimeError].
Proof.
  intros choices w0 rs.
  destruct (connections_allocate 501 502 choices (random.Rng (fun k => (3 * k)%nat) 0) 4)
    as (Hl & _ & _ & _ & Hd & _); [discriminate|].
  split; [exact Hl|exact Hd].
Defined.

(** ** Protocol serializer: shapes, errors, loop-back *)
Section SerializerMore.
Context {lib : ACSFrameSerializer.PyLib}.
Import ACSFrameSerializer.
Implicit Types (self : t) (m a : list (string * json)).

Lemma decode_audio_shape self v f :
  decode_audio self v = Return (Some f) ->
  exists pcm, f = AudioFrame InputAudioRaw (AudioData pcm (_sample_rate self) 1).
Proof.
  destruct v as [| | | | | |a]; try done.
  rewrite decode_audio_obj. cbv zeta.
  destruct (negb _); [done|].
  destruct (py_b64decode _) as [pcm|e]; [|done]. cbn [mbind result_bind].
  destruct (if ne_int _ _ then _ else _) as [pcm'|e]; [|done].
  cbn [mbind result_bind]. intros [= <-]. by exists pcm'.
Qed.

(** X14: whatever the message, a frame that [deserialize] returns is an
    inbound audio frame with one channel at the serializer's own rate; no
    other kind of frame, rate or channel count ever comes out. *)
Theorem deserialize_frame_shape self data f :
  deserialize self data = Return (Some f) ->
  exists pcm, f = AudioFrame InputAudioRaw (AudioData pcm (_sample_rate self) 1).
Proof.
  unfold deserialize. destruct (json_loads data) as [msg|e].
  - destruct msg as [| | | | | |m]; try done.
    rewrite deserialize_msg_obj. destruct (ne_str _ _); [done|].
    apply decode_audio_shape.
  - by destruct (is_ValueError e).
Qed.

(** X15: an exception leaves [serialize] only from a library call on the
    frame's own content: from the resampling of an audio frame whose rate is
    not 16000, and it is the exception of [ratecv], or from [json.dumps] on
    the message of a transport-message frame; control frames, other frames
    and 16 kHz audio never raise. *)
Theorem serialize_raises_only_from_ratecv_or_dumps self f e :
  serialize self f = Raise e ->
  (exists cls ad,
     f = AudioFrame cls ad
     /\ (if Z.eqb (sample_rate ad) 0 then _sample_rate self else sample_rate ad)
        <> 16000
     /\ ratecv (audio ad) 2 1
          (if Z.eqb (sample_rate ad) 0 then _sample_rate self else sample_rate ad)
          16000
        = Raise e)
  \/ (exists message,
        (f = TransportMessageFrame message \/ f = TransportMessageUrgentFrame message)
        /\ json_dumps message = Raise e).
Proof.
  assert (Hstop : (if InputParams.auto_stop_audio (_params self)
                   then text ← json_dumps stop_audio_message; Return (Some text)
                   else Return None) <> Raise e).
  { destruct json_dumps_stop_audio as [text ->].
    by destruct (InputParams.auto_stop_audio _). }
  destruct f as [| | | |cls ad|msg|msg| | | | | | | | |]; try done.
  - rewrite serialize_audio. cbv zeta.
    set (sr := if Z.eqb (sample_rate ad) 0 then _ else _).
    destruct (json_dumps_envelope (b64encode (audio ad))) as [text Ht].
    destruct (Z.eqb_spec sr 16000) as [|Hne];
      [cbn [mbind result_bind]; by rewrite Ht|].
    destruct (ratecv (audio ad) 2 1 sr 16000) as [pcm'|e'] eqn:Hr.
    + cbn [mbind result_bind].
      by destruct (json_dumps_envelope (b64encode pcm')) as [text' ->].
    + intros [= ->]. left. by exists cls, ad.
  - simpl. destruct (json_dumps msg) as [text|e'] eqn:Hd; [done|].
    intros [= ->]. right. exists msg. by split; [left|].
  - simpl. destruct (json_dumps msg) as [text|e'] eqn:Hd; [done|].
    intros [= ->]. right. exists msg. by split; [right|].
Qed.

(** X16: the serializer does not read its own output: the text that
    [serialize] gives for an audio frame or a stop signal is the dump of a
    JSON value, and when [json.loads] reads that value back from the text,
    [deserialize] gives none for it (the outbound kinds are [audioData] and
    [stopAudio], the inbound kind is [AudioData]). *)
Theorem serialize_output_not_deserialized self self' f text :
  serialize self f = Return (Some text) ->
  is_transport_message f = false ->
  exists v, json_dumps v = Return text
    /\ (json_loads text = Return v -> deserialize self' text = Return None).
Proof.
  intros Hs Ht.
  assert (Hstop : (if InputParams.auto_stop_audio (_params self)
                   then text ← json_dumps stop_audio_message; Return (Some text)
                   else Return None) = Return (Some text) ->
    exists v, json_dumps v = Return text
      /\ (json_loads text = Return v -> deserialize self' text = Return None)).
  { destruct (InputParams.auto_stop_audio _); [|done].
    destruct (json_dumps stop_audio_message) as [text'|] eqn:Hd; [|done].
    intros [= ->]. exists stop_audio_message. split; [done|].
    intros Hl. by rewrite (deserialize_loaded _ _ _ Hl). }
  assert (Haud : forall payload,
    (text ← json_dumps (audio_envelope payload 16000); Return (Some text))
    = Return (Some text) ->
    exists v, json_dumps v = Return text
      /\ (json_loads text = Return v -> deserialize self' text = Return None)).
  { intros payload.
    destruct (json_dumps (audio_envelope payload 16000)) as [text'|] eqn:Hd; [|done].
    intros [= ->]. exists (audio_envelope payload 16000). split; [done|].
    intros Hl. by rewrite (deserialize_loaded _ _ _ Hl). }
  destruct f as [| | | |cls ad| | | | | | | | | | |]; try done;
    try (by apply Hstop).
  rewrite serialize_audio in Hs. cbv zeta in Hs.
  destruct (Z.eqb _ 16000).
  - by apply (Haud (b64encode (audio ad))).
  - destruct (ratecv _ _ _ _ _) as [pcm'|e]; [|done].
    by apply (Haud (b64encode pcm')).
Qed.

(** X17: [setup] with a rate of 0 changes nothing and with any other rate
    sets the inbound rate, never the parameters; it has no effect on
    [serialize] except for audio frames that declare the rate 0. *)
Theorem setup_only_sets_inbound_rate self r f :
  setup self 0 = self
  /\ (r <> 0 -> _sample_rate (setup self r) = r)
  /\ _params (setup self r) = _params self
  /\ ((forall cls ad, f = AudioFrame cls ad -> sample_rate ad <> 0) ->
      serialize (setup self r) f = serialize self f).
Proof.
  split; [by destruct self|]. split.
  { intros Hr. unfold setup. simpl. by destruct (Z.eqb_spec r 0). }
  split; [done|]. intros Hf.
  destruct f as [| | | |cls ad| | | | | | | | | | |]; try done.
  rewrite !serialize_audio. cbv zeta.
  destruct (Z.eqb_spec (sample_rate ad) 0) as [H0|H0]; [|done].
  by destruct (Hf cls ad eq_refl).
Qed.

(** X18: JSON text that is not an object, and an [AudioData] message whose
    audio payload is a non-empty value other than an object, make
    [deserialize] raise [AttributeError]. *)
Theorem deserialize_attribute_error self data v :
  json_loads data = Return v ->
  ((forall m, v <> JObj m) -> deserialize self data = Raise AttributeError)
  /\ (forall m, v = JObj m -> kind_field m = JStr "AudioData" ->
      (forall a, audio_field m <> JObj a) ->
      deserialize self data = Raise AttributeError).
Proof.
  intros Hl. rewrite (deserialize_loaded _ _ _ Hl). split.
  - intros Hv. destruct v as [| | | | | |m]; try done. by destruct (Hv m).
  - intros m -> Hk Ha. rewrite deserialize_msg_obj, Hk. simpl.
    destruct (audio_field m) as [| | | | | |a]; try done. by destruct (Ha a).
Qed.

(** X19: in an [AudioData] message with an audio object, a non-empty
    [data] that is not a string makes [deserialize] raise [TypeError]; with a
    decodable [data] string, so does a sample rate that is neither an integer
    nor a boolean and differs from the serializer's rate (a string of digits,
    a list, a float such as 8000.0), while a float that equals the
    serializer's rate (16000.0 for 16000) is accepted: the frame carries the
    decoded payload, not resampled. *)
Theorem deserialize_type_error self data m a :
  json_loads data = Return (JObj m) ->
  kind_field m = JStr "AudioData" ->
  audio_field m = JObj a ->
  (truthy (data_field a) = true -> (forall s, data_field a <> JStr s) ->
   deserialize self data = Raise TypeError)
  /\ (forall s pcm,
        data_field a = JStr s -> s <> "" -> b64decode s = Return pcm ->
        (forall n, rate_field a <> JInt n) -> (forall b, rate_field a <> JBool b) ->
        (ne_int (rate_field a) (_sample_rate self) = true ->
         deserialize self data = Raise TypeError)
        /\ (forall x, rate_field a = JFloat x ->
            float_eq_int x (_sample_rate self) = true ->
            deserialize self data
            = Return (Some (AudioFrame InputAudioRaw
                              (AudioData pcm (_sample_rate self) 1))))).
Proof.
  intros Hl Hk Ha.
  rewrite (deserialize_loaded _ _ _ Hl), deserialize_msg_obj, Hk, Ha. simpl.
  rewrite decode_audio_obj. cbv zeta.
  fold (data_field a) (rate_field a). split.
  - intros Ht Hs. rewrite Ht. simpl.
    destruct (data_field a) as [| | | |s| |]; try done. by destruct (Hs s).
  - intros s pcm Hb Hs Hd Hn Hbo. rewrite Hb. simpl.
    assert (String.eqb s "" = false) as -> by (by apply String.eqb_neq).
    simpl. rewrite Hd. cbn [mbind result_bind]. split.
    + intros Hne. rewrite Hne.
      destruct (rate_field a) as [|b|n| | | |]; try done;
        [by destruct (Hbo b)|by destruct (Hn n)].
    + intros x Hx He. rewrite Hx. cbn [ne_int]. by rewrite He.
Qed.

End SerializerMore.

Section SerializerMoreExamples.
Import ACSFrameSerializer Reference.

Lemma deserialize_frame_shape_witness :
  exists pcm,
    AudioFrame InputAudioRaw (AudioData [x00; x01; x01; x02; x02; x03] 16000 1)
    = AudioFrame InputAudioRaw (AudioData pcm (_sample_rate (__init__ None)) 1).
Proof.
  refine (deserialize_frame_shape (__init__ None)
    (wire "{'Kind':'AudioData','AudioData':{'Data':'AAECAw==','SampleRate':8000}}")
    _ _).
  vm_compute. reflexivity.
Defined.

Lemma serialize_raises_only_from_ratecv_or_dumps_witness :
  ratecv [x00; x01; x02] 2 1 8000 16000 = Raise AudioopError
  /\ json_dumps (JArr [JInt (10 ^ 4300)]) = Raise ValueError.
Proof.
  split.
  - destruct (serialize_raises_only_from_ratecv_or_dumps (__init__ None)
      (AudioFrame OutputAudioRaw (AudioData [x00; x01; x02] 8000 1)) AudioopError)
      as [(cls & ad & [= <- <-] & _ & Hr)|(msg & [Hf|Hf] & _)];
      [vm_compute; reflexivity|exact Hr|discriminate Hf|discriminate Hf].
  - destruct (serialize_raises_only_from_ratecv_or_dumps (__init__ None)
      (TransportMessageFrame (JArr [JInt (10 ^ 4300)])) ValueError)
      as [(cls & ad & Hf & _)|(msg & [[= <-]|Hf] & Hd)];
      [vm_compute; reflexivity|discriminate Hf|exact Hd|discriminate Hf].
Defined.

Lemma serialize_output_not_deserialized_witness :
  exists v,
    json_dumps v
    = Return (wire "{'kind': 'audioData', 'audioData': {'timestamp': null, 'participantRawID': '', 'data': 'AAECAw==', 'silent': false, 'sampleRate': 16000}}")
    /\ (json_loads
         (wire "{'kind': 'audioData', 'audioData': {'timestamp': null, 'participantRawID': '', 'data': 'AAECAw==', 'silent': false, 'sampleRate': 16000}}")
       = Return v ->
       deserialize (__init__ None)
         (wire "{'kind': 'audioData', 'audioData': {'timestamp': null, 'participantRawID': '', 'data': 'AAECAw==', 'silent': false, 'sampleRate': 16000}}")
       = Return None).
Proof.
  refine (serialize_output_not_deserialized (__init__ None) (__init__ None)
    (AudioFrame OutputAudioRaw (AudioData [x00; x01; x02; x03] 16000 1)) _ _ _).
  - vm_compute. reflexivity.
  - reflexivity.
Defined.

Lemma deserialize_attribute_error_witness :
  deserialize (__init__ None) (wire "[1, 2]") = Raise AttributeError.
Proof.
  refine (proj1 (deserialize_attribute_error (__init__ None) (wire "[1, 2]")
                   (JArr [JInt 1; JInt 2]) _) _).
  - vm_compute. reflexivity.
  - discriminate.
Defined.

Lemma deserialize_type_error_witness :
  deserialize (__init__ None)
    (wire "{'kind':'AudioData','audioData':{'data':'AAECAw==','sampleRate':'8000'}}")
  = Raise TypeError
  /\ deserialize (__init__ None)
       (wire "{'kind':'AudioData','audioData':{'data':'AAECAw==','sampleRate':8000.0}}")
     = Raise TypeError
  /\ deserialize (__init__ None)
       (wire "{'kind':'AudioData','audioData':{'data':'AAECAw==','sampleRate':16000.0}}")
     = Return (Some (AudioFrame InputAudioRaw (AudioData [x00; x01; x02; x03] 16000 1))).
Proof.
  pose (a1 := [("data", JStr "AAECAw=="); ("sampleRate", JStr "8000")]).
  pose (a2 := [("data", JStr "AAECAw==");
               ("sampleRate", JFloat (S754_finite false 8796093022208000 (-40)))]).
  pose (a3 := [("data", JStr "AAECAw==");
               ("sampleRate", JFloat (S754_finite false 8796093022208000 (-39)))]).
  split; [|split].
  - refine (proj1 (proj2 (deserialize_type_error (__init__ None)
      (wire "{'kind':'AudioData','audioData':{'data':'AAECAw==','sampleRate':'8000'}}")
      [("kind", JStr "AudioData"); ("audioData", JObj a1)] a1 _ _ _)
      "AAECAw==" [x00; x01; x02; x03] _ _ _ _ _) _).
    + vm_compute. reflexivity.
    + reflexivity.
    + reflexivity.
    + reflexivity.
    + discriminate.
    + vm_compute. reflexivity.
    + discriminate.
    + discriminate.
    + reflexivity.
  - refine (proj1 (proj2 (deserialize_type_error (__init__ None)
      (wire "{'kind':'AudioData','audioData':{'data':'AAECAw==','sampleRate':8000.0}}")
      [("kind", JStr "AudioData"); ("audioData", JObj a2)] a2 _ _ _)
      "AAECAw==" [x00; x01; x02; x03] _ _ _ _ _) _).
    + vm_compute. reflexivity.
    + reflexivity.
    + reflexivity.
    + reflexivity.
    + discriminate.
    + vm_compute. reflexivity.
    + discriminate.
    + discriminate.
    + vm_compute. reflexivity.
  - refine (proj2 (proj2 (deserialize_type_error (__init__ None)
      (wire "{'kind':'AudioData','audioData':{'data':'AAECAw==','sampleRate':16000.0}}")
      [("kind", JStr "AudioData"); ("audioData", JObj a3)] a3 _ _ _)
      "AAECAw==" [x00; x01; x02; x03] _ _ _ _ _) _ _ _).
    + vm_compute. reflexivity.
    + reflexivity.
    + reflexivity.
    + reflexivity.
    + discriminate.
    + vm_compute. reflexivity.
    + discriminate.
    + discriminate.
    + reflexivity.
    + vm_compute. reflexivity.
Defined.

End SerializerMoreExamples.
